(** * natours: controllers/authController.js

    A shallow embedding of the authentication controller (sign-up, login,
    logout, the [protect] and [isLoggedIn] middlewares, the password reset
    flow and the password update) together with the properties stated about
    it.

    Handlers are Express handlers: they read a request, talk to the user
    collection, the JWT library and the mailer, and end either by writing a
    response or by calling [next].  They are embedded as computations in a
    state-and-exception monad over a [State] that holds the user collection,
    the clock, the request-scoped slots [req.user] and [res.locals.user] and
    the ordered log of calls made on [res], [next] and the mailer. *)

From Stdlib Require Import String Ascii List ZArith Bool Lia.
Import ListNotations.

Local Open Scope string_scope.
Local Open Scope Z_scope.

(* ------------------------------------------------------------------ *)
(** ** JavaScript values used by the controller *)

Module Js.

(** A possibly [undefined] string.  [undefined] and the empty string are
    the two falsy values a header, a cookie or a body field can take. *)
Definition truthy (v : option string) : bool :=
  match v with
  | None => false
  | Some EmptyString => false
  | Some (String _ _) => true
  end.

(** [s.startsWith(p)] *)
Definition startsWith (s p : string) : bool := String.prefix p s.

(** [s.split(sep)] for a one-character separator: never empty, one more
    piece than there are separators. *)
Fixpoint split (sep : ascii) (s : string) : list string :=
  match s with
  | EmptyString => [EmptyString]
  | String c r =>
      if Ascii.eqb c sep then EmptyString :: split sep r
      else match split sep r with
           | [] => [String c EmptyString]
           | h :: t => String c h :: t
           end
  end.

(** [xs[i]], [undefined] out of range. *)
Definition index {A} (xs : list A) (i : nat) : option A := nth_error xs i.

(** Strict equality of two possibly-undefined strings. *)
Definition eqb (a b : option string) : bool :=
  match a, b with
  | None, None => true
  | Some x, Some y => String.eqb x y
  | _, _ => false
  end.

End Js.

(* ------------------------------------------------------------------ *)
(** ** Data model *)

Definition ObjectId := string.

(** A user document as this controller reads and writes it. *)
Record User := mkUser {
  _id : ObjectId;
  name : option string;
  email : option string;
  password : option string;
  passwordConfirm : option string;
  role : option string;
  passwordChangedAt : option Z;
  passwordResetToken : option string;
  passwordResetExpires : option Z
}.

Definition set_password (v : option string) (u : User) : User :=
  mkUser (_id u) (name u) (email u) v (passwordConfirm u) (role u)
         (passwordChangedAt u) (passwordResetToken u) (passwordResetExpires u).

Definition set_passwordConfirm (v : option string) (u : User) : User :=
  mkUser (_id u) (name u) (email u) (password u) v (role u)
         (passwordChangedAt u) (passwordResetToken u) (passwordResetExpires u).

Definition set_passwordResetToken (v : option string) (u : User) : User :=
  mkUser (_id u) (name u) (email u) (password u) (passwordConfirm u) (role u)
         (passwordChangedAt u) v (passwordResetExpires u).

Definition set_passwordResetExpires (v : option Z) (u : User) : User :=
  mkUser (_id u) (name u) (email u) (password u) (passwordConfirm u) (role u)
         (passwordChangedAt u) (passwordResetToken u) v.

(** Modelled from the spec: AppError (utils/appError.js is not part of the
    sources at hand).  An operational error carries a human-readable message
    and an HTTP status code; the code is whatever the second constructor
    argument was, hence [None] (undefined) when the constructor is called with
    the message alone. *)
Record AppError := mkAppError {
  message : string;
  statusCode : option Z;
  isOperational : bool
}.

Definition new_AppError (msg : string) (code : option Z) : AppError :=
  {| message := msg; statusCode := code; isOperational := true |}.

(** Errors of the JWT library's [verify]. *)
Inductive JwtError := JsonWebTokenError | TokenExpiredError | NotBeforeError.

(** What a handler can throw, or hand to [next]. *)
Inductive JsError :=
| AppErr (e : AppError)
| JwtErr (e : JwtError)
| ValidationErr
| MailErr
| TypeErr.

(** The decoded payload of a token: [{ id, iat }]. *)
Record Payload := { pl_id : ObjectId; pl_iat : Z }.

Record CookieOptions := {
  expires : Z;
  httpOnly : bool;
  secure : bool
}.

(** The JSON bodies this controller writes:
    [{ status, token, data: { user } }], [{ status, message }], [{ status }]. *)
Record JsonBody := {
  j_status : string;
  j_token : option string;
  j_message : option string;
  j_user : option User
}.

Inductive MailKind := Welcome | PasswordReset.

(** The calls a handler makes on its surroundings, as the source makes them. *)
Inductive Event :=
| Next (err : option JsError) (rest : list Z)
| Cookie (cname cvalue : string) (opts : CookieOptions)
| Respond (status : Z) (body : JsonBody)
| Mail (kind : MailKind) (to : User) (url : string).

(** [process.env] *)
Record Env := {
  JWT_SECRET : string;
  JWT_EXPIRES_IN : string;
  JWT_COOKIE_EXPIRES_IN : Z;
  NODE_ENV : string
}.

Record Body := {
  b_name : option string;
  b_email : option string;
  b_password : option string;
  b_passwordConfirm : option string;
  b_passwordCurrent : option string;
  b_role : option string
}.

Record Request := {
  authorization : option string;   (* req.headers.authorization *)
  cookies_jwt : option string;     (* req.cookies.jwt *)
  body : Body;
  params_token : string;           (* req.params.token *)
  protocol : string;
  host : string                    (* req.get('host') *)
}.

Record State := mkState {
  env : Env;
  users : list User;               (* the User collection *)
  clock : Z;                       (* Date.now() *)
  mailUp : bool;                   (* does the mail transport deliver *)
  entropy : nat;                   (* draws made from crypto.randomBytes *)
  reqUser : option User;           (* req.user *)
  localsUser : option User;        (* res.locals.user *)
  out : list Event                 (* calls made so far, oldest first *)
}.

Definition set_users (v : list User) (s : State) : State :=
  mkState (env s) v (clock s) (mailUp s) (entropy s) (reqUser s)
          (localsUser s) (out s).

Definition set_entropy (v : nat) (s : State) : State :=
  mkState (env s) (users s) (clock s) (mailUp s) v (reqUser s)
          (localsUser s) (out s).

Definition set_reqUser (v : option User) (s : State) : State :=
  mkState (env s) (users s) (clock s) (mailUp s) (entropy s) v
          (localsUser s) (out s).

Definition set_localsUser (v : option User) (s : State) : State :=
  mkState (env s) (users s) (clock s) (mailUp s) (entropy s) (reqUser s)
          v (out s).

Definition emit (e : Event) (s : State) : State :=
  mkState (env s) (users s) (clock s) (mailUp s) (entropy s) (reqUser s)
          (localsUser s) (out s ++ [e]).

(* ------------------------------------------------------------------ *)
(** ** The handler monad: state and thrown errors *)

Inductive Result (A : Type) :=
| Ret (a : A)
| Throw (e : JsError).
Arguments Ret {A} a.
Arguments Throw {A} e.

Definition M (A : Type) := State -> Result A * State.

Definition ret {A} (a : A) : M A := fun s => (Ret a, s).

Definition throw {A} (e : JsError) : M A := fun s => (Throw e, s).

Definition bind {A B} (c : M A) (k : A -> M B) : M B :=
  fun s =>
    match c s with
    | (Ret a, s') => k a s'
    | (Throw e, s') => (Throw e, s')
    end.

(** [try { c } catch (err) { h(err) }] *)
Definition try_catch {A} (c : M A) (h : JsError -> M A) : M A :=
  fun s =>
    match c s with
    | (Ret a, s') => (Ret a, s')
    | (Throw e, s') => h e s'
    end.

Definition gets {A} (f : State -> A) : M A := fun s => (Ret (f s), s).

Definition modify (f : State -> State) : M unit := fun s => (Ret tt, f s).

Declare Scope handler_scope.
Delimit Scope handler_scope with handler.
Notation "x <- c ;; k" := (bind c (fun x => k))
  (at level 61, c at next level, right associativity) : handler_scope.
Notation "' pat <- c ;; k" := (bind c (fun x => match x with pat => k end))
  (at level 61, pat pattern, c at next level, right associativity)
  : handler_scope.
Notation "c ;; k" := (bind c (fun _ => k))
  (at level 61, right associativity) : handler_scope.
Local Open Scope handler_scope.

(** [next()], [next(err)], [next(err, x)]: the arguments are logged as
    passed; Express looks at the first one only. *)
Definition next (err : option JsError) (rest : list Z) : M unit :=
  modify (emit (Next err rest)).

Definition res_cookie (n v : string) (o : CookieOptions) : M unit :=
  modify (emit (Cookie n v o)).

(** [res.status(code).json(body)] *)
Definition res_status_json (code : Z) (b : JsonBody) : M unit :=
  modify (emit (Respond code b)).

(** Modelled from the spec: catchAsync (utils/catchAsync.js is not part of
    the sources at hand), the uniform async-error adapter: whatever the
    wrapped handler throws or rejects with is forwarded, as it is, to
    [next]. *)
Definition catchAsync (fn : Request -> M unit) : Request -> M unit :=
  fun req => try_catch (fn req) (fun err => next (Some err) []).

(** The final state of a handler run. *)
Definition final (h : Request -> M unit) (req : Request) (s : State) : State :=
  snd (h req s).

(* ------------------------------------------------------------------ *)
(** ** External collaborators *)

(** What the controller calls but does not define: the JWT library, Node's
    crypto, and the methods and validators of the user model (models/userModel.js
    is not part of the sources at hand).  Nothing is assumed about them beyond
    their types. *)
Class Collaborators := {
  (** [jwt.sign({ id }, secret, { expiresIn })] at a given time *)
  jwt_sign : ObjectId -> string -> string -> Z -> string;
  (** [jwt.verify(token, secret)] at a given time: the payload, or the
      library's error *)
  jwt_verify : string -> string -> Z -> JwtError + Payload;
  (** [crypto.createHash('sha256').update(x).digest('hex')] *)
  sha256_hex : string -> string;
  (** the n-th draw of random bytes, in hex *)
  randomBytes_hex : nat -> string;
  (** how long a reset token stays valid, in milliseconds *)
  resetWindow : Z;
  (** [user.correctPassword(candidate, stored)] *)
  correctPassword : option string -> option string -> bool;
  (** [user.changedPasswordAfter(iat)] *)
  changedPasswordAfter : User -> Z -> bool;
  (** the schema validators run by [save()] and [create()] *)
  validate : list User -> User -> bool;
  (** the identifier the store gives a new document *)
  newObjectId : list User -> ObjectId
}.

Section Controller.

Context {K : Collaborators}.

(* ------------------------------------------------------------------ *)
(** ** The user store *)

(** Modelled from the spec: the user-record store (models/userModel.js is not
    part of the sources at hand): find by email, find by id, find by reset
    token hash and expiry, create and save with validation, compute a reset
    token and its hash with a bounded validity window.  The collection is a
    list of documents; a query returns the first document that matches; a
    save rewrites the document with the same identifier. *)
Definition findOne (p : User -> bool) (db : list User) : option User :=
  find p db.

Definition by_email (e : option string) (u : User) : bool :=
  Js.eqb (email u) e.

Definition by_id (i : ObjectId) (u : User) : bool :=
  String.eqb (_id u) i.

(** [{ passwordResetToken: h, passwordResetExpires: { $gt: now } }] *)
Definition by_reset (h : string) (now : Z) (u : User) : bool :=
  Js.eqb (passwordResetToken u) (Some h) &&
  match passwordResetExpires u with
  | Some e => now <? e
  | None => false
  end.

Definition User_findOne_email (e : option string) : M (option User) :=
  gets (fun s => findOne (by_email e) (users s)).

Definition User_findById (i : ObjectId) : M (option User) :=
  gets (fun s => findOne (by_id i) (users s)).

Definition User_findOne_reset (h : string) (now : Z) : M (option User) :=
  gets (fun s => findOne (by_reset h now) (users s)).

Definition replace_doc (u : User) (db : list User) : list User :=
  map (fun d => if by_id (_id u) d then u else d) db.

(** [user.save()] and [user.save({ validateBeforeSave: false })] *)
Definition User_save (validateBeforeSave : bool) (u : User) : M unit :=
  fun s =>
    if validateBeforeSave && negb (validate (users s) u)
    then (Throw ValidationErr, s)
    else (Ret tt, set_users (replace_doc u (users s)) s).

(** [User.create({ name, email, password, passwordConfirm, role })] *)
Definition User_create (n e p pc r : option string) : M User :=
  fun s =>
    let u := mkUser (newObjectId (users s)) n e p pc r None None None in
    if validate (users s) u
    then (Ret u, set_users (users s ++ [u]) s)
    else (Throw ValidationErr, s).

(** [user.createPasswordResetToken()]: draws a fresh token, keeps its hash
    and its expiry on the document, returns the raw token. *)
Definition createPasswordResetToken (u : User) : M (string * User) :=
  fun s =>
    let resetToken := randomBytes_hex (entropy s) in
    let u' := set_passwordResetExpires (Some (clock s + resetWindow))
                (set_passwordResetToken (Some (sha256_hex resetToken)) u) in
    (Ret (resetToken, u'), set_entropy (S (entropy s)) s).

(** Modelled from the spec: the mailer (utils/email.js is not part of the
    sources at hand), with its "send welcome" and "send password reset"
    operations: the message goes out, or the call throws. *)
Definition Email_send (k : MailKind) (u : User) (url : string) : M unit :=
  fun s =>
    if mailUp s then (Ret tt, emit (Mail k u url) s)
    else (Throw MailErr, s).

(* ------------------------------------------------------------------ *)
(** ** The controller *)

Definition signToken (id : ObjectId) : M string :=
  gets (fun s => jwt_sign id (JWT_SECRET (env s)) (JWT_EXPIRES_IN (env s))
                          (clock s)).

Definition createSendToken (user : User) (code : Z) : M unit :=
  token <- signToken (_id user) ;;
  now <- gets clock ;;
  e <- gets env ;;
  let cookieOptions :=
    {| expires := now + JWT_COOKIE_EXPIRES_IN e * 24 * 60 * 60 * 1000;
       httpOnly := true;
       secure := String.eqb (NODE_ENV e) "production" |} in
  res_cookie "jwt" token cookieOptions ;;
  let user := set_password None user in
  res_status_json code
    {| j_status := "success"; j_token := Some token; j_message := None;
       j_user := Some user |}.

Definition signup : Request -> M unit :=
  catchAsync (fun req =>
    let b := body req in
    newUser <- User_create (b_name b) (b_email b) (b_password b)
                           (b_passwordConfirm b) (b_role b) ;;
    let url := protocol req ++ "://" ++ host req ++ "/me" in
    Email_send Welcome newUser url ;;
    createSendToken newUser 201).

Definition login : Request -> M unit :=
  catchAsync (fun req =>
    let body_email := b_email (body req) in
    let body_password := b_password (body req) in
    if negb (Js.truthy body_email) || negb (Js.truthy body_password) then
      next (Some (AppErr (new_AppError "Please provide email and password !"
                                       (Some 400)))) []
    else
      user <- User_findOne_email body_email ;;
      let incorrect :=
        next (Some (AppErr (new_AppError "Incorrect email or password !"
                                         (Some 401)))) [] in
      match user with
      | None => incorrect
      | Some u =>
          if negb (correctPassword body_password (password u))
          then incorrect
          else createSendToken u 200
      end).

Definition logout : Request -> M unit :=
  fun _ =>
    now <- gets clock ;;
    res_cookie "jwt" "log-out-token-:D"
      {| expires := now + 10 * 1000; httpOnly := true; secure := false |} ;;
    res_status_json 200
      {| j_status := "success"; j_token := None; j_message := None;
         j_user := None |}.

(** Step 1 of [protect]: where the token is taken from. *)
Definition protect_token (req : Request) : option string :=
  let bearer :=
    match authorization req with
    | Some a => Js.truthy (Some a) && Js.startsWith a "Bearer"
    | None => false
    end in
  if bearer then
    match authorization req with
    | Some a => Js.index (Js.split " "%char a) 1
    | None => None
    end
  else if Js.truthy (cookies_jwt req) then cookies_jwt req
  else None.

(** [await promisify(jwt.verify)(token, process.env.JWT_SECRET)] *)
Definition verify (token : string) : M Payload :=
  fun s =>
    match jwt_verify token (JWT_SECRET (env s)) (clock s) with
    | inr p => (Ret p, s)
    | inl e => (Throw (JwtErr e), s)
    end.

Definition protect : Request -> M unit :=
  catchAsync (fun req =>
    match protect_token req with
    | None | Some EmptyString =>
        next (Some (AppErr (new_AppError
          "Authorization failed !. You are not log in !" (Some 401)))) []
    | Some token =>
        decoded <- verify token ;;
        currentUser <- User_findById (pl_id decoded) ;;
        match currentUser with
        | None =>
            next (Some (AppErr (new_AppError
              "The user belonging to this token no longer exist !"
              (Some 401)))) []
        | Some u =>
            if changedPasswordAfter u (pl_iat decoded) then
              next (Some (AppErr (new_AppError
                "User recently has changed password, please login again !"
                (Some 401)))) []
            else
              modify (set_reqUser (Some u)) ;;
              modify (set_localsUser (Some u)) ;;
              next None []
        end
    end).

Definition isLoggedIn : Request -> M unit :=
  fun req =>
    match cookies_jwt req with
    | None | Some EmptyString => next None []
    | Some token =>
        try_catch
          (decoded <- verify token ;;
           currentUser <- User_findById (pl_id decoded) ;;
           match currentUser with
           | None => next None []
           | Some u =>
               if changedPasswordAfter u (pl_iat decoded) then next None []
               else
                 modify (set_localsUser (Some u)) ;;
                 next None []
           end)
          (fun err => next None [])
    end.

Definition restrictTo (roles : list string) : Request -> M unit :=
  fun _ =>
    ru <- gets reqUser ;;
    match ru with
    | None => throw TypeErr
    | Some u =>
        if negb (existsb (fun r => Js.eqb (Some r) (role u)) roles) then
          next (Some (AppErr (new_AppError
            "Permission for this action is denied !" (Some 403)))) []
        else next None []
    end.

Definition forgotPassword : Request -> M unit :=
  catchAsync (fun req =>
    found <- User_findOne_email (b_email (body req)) ;;
    match found with
    | None =>
        next (Some (AppErr (new_AppError
          "There is no user with that email address !" (Some 404)))) []
    | Some user =>
        '(resetToken, user) <- createPasswordResetToken user ;;
        User_save false user ;;
        try_catch
          (let resetURL :=
             protocol req ++ "://" ++ host req
               ++ "/api/v1/users/resetPassword/" ++ resetToken in
           Email_send PasswordReset user resetURL ;;
           res_status_json 200
             {| j_status := "success"; j_token := None;
                j_message := Some "Token has been sent to email";
                j_user := None |})
          (fun err =>
             let user := set_passwordResetToken None user in
             let user := set_passwordResetExpires None user in
             User_save false user ;;
             next (Some (AppErr (new_AppError
               "There was an error sending email, try again !" None)))
               [500])
    end).

Definition resetPassword : Request -> M unit :=
  catchAsync (fun req =>
    let hashedToken := sha256_hex (params_token req) in
    now <- gets clock ;;
    found <- User_findOne_reset hashedToken now ;;
    match found with
    | None =>
        next (Some (AppErr (new_AppError
          "This token has been expired or user doee not exist"
          (Some 400)))) []
    | Some user =>
        let user := set_password (b_password (body req)) user in
        let user := set_passwordConfirm (b_passwordConfirm (body req)) user in
        let user := set_passwordResetToken None user in
        let user := set_passwordResetExpires None user in
        User_save true user ;;
        createSendToken user 200
    end).

Definition updatePassword : Request -> M unit :=
  catchAsync (fun req =>
    ru <- gets reqUser ;;
    match ru with
    | None => throw TypeErr
    | Some me =>
        found <- User_findById (_id me) ;;
        match found with
        | None => throw TypeErr
        | Some user =>
            if negb (correctPassword (b_passwordCurrent (body req))
                                     (password user))
            then
              next (Some (AppErr (new_AppError "Current password is wrong !"
                                               (Some 401)))) []
            else
              let user := set_password (b_password (body req)) user in
              let user :=
                set_passwordConfirm (b_passwordConfirm (body req)) user in
              User_save true user ;;
              createSendToken user 200
        end
    end).

End Controller.

(* ------------------------------------------------------------------ *)
(** ** Observations on a run *)

(** The calls made between state [s] and a later state [s']. *)
Definition since (s s' : State) : list Event :=
  skipn (length (out s)) (out s').

(** From [s] to [s'] exactly one call was made: [next(err)] with an
    operational error carrying status [code].  Nothing else moved. *)
Definition signals (code : Z) (s s' : State) : Prop :=
  exists e : AppError,
    s' = emit (Next (Some (AppErr e)) []) s /\
    statusCode e = Some code /\ isOperational e = true.

(** A response body that carries a user carries no password. *)
Definition redacted (e : Event) : Prop :=
  match e with
  | Respond _ b =>
      match j_user b with
      | Some u => password u = None
      | None => True
      end
  | _ => True
  end.

(** Every call a computation adds to the log is [redacted]. *)
Definition redacting {A} (c : M A) : Prop :=
  forall s, exists evs,
    out (snd (c s)) = (out s ++ evs)%list /\ Forall redacted evs.

Definition set_cookies_jwt (v : option string) (r : Request) : Request :=
  {| authorization := authorization r; cookies_jwt := v; body := body r;
     params_token := params_token r; protocol := protocol r;
     host := host r |}.

(** The four situations in which [protect] is said to turn a request away. *)
Section ProtectCases.

Context {K : Collaborators}.
Variables (req : Request) (s : State).

Definition no_token : Prop := Js.truthy (protect_token req) = false.

Definition token_invalid : Prop :=
  exists tok e,
    protect_token req = Some tok /\ Js.truthy (Some tok) = true /\
    jwt_verify tok (JWT_SECRET (env s)) (clock s) = inl e.

(** The token verifies and names user [i], issued at [iat]. *)
Definition token_names (i : ObjectId) (iat : Z) : Prop :=
  exists tok,
    protect_token req = Some tok /\ Js.truthy (Some tok) = true /\
    jwt_verify tok (JWT_SECRET (env s)) (clock s)
      = inr {| pl_id := i; pl_iat := iat |}.

Definition user_gone : Prop :=
  exists i iat, token_names i iat /\ findOne (by_id i) (users s) = None.

Definition password_changed : Prop :=
  exists i iat u,
    token_names i iat /\ findOne (by_id i) (users s) = Some u /\
    changedPasswordAfter u iat = true.

End ProtectCases.

(* ------------------------------------------------------------------ *)
(** ** A concrete instance to run the handlers on *)

Module Demo.

(** Tokens are ["jwt:" ++ id]; anything else fails verification.  A stored
    password matches itself.  A document is valid when it has a password
    and its confirmation repeats it. *)
Definition collaborators : Collaborators := {|
  jwt_sign := fun id _ _ _ => "jwt:" ++ id;
  jwt_verify := fun tok _ now =>
    if String.prefix "jwt:" tok
    then inr {| pl_id := substring 4 (String.length tok - 4) tok;
                pl_iat := now - 1000 |}
    else inl JsonWebTokenError;
  sha256_hex := fun x => "sha256(" ++ x ++ ")";
  randomBytes_hex := fun n => if Nat.eqb n 0 then "r0" else "r1";
  resetWindow := 10 * 60 * 1000;
  correctPassword := fun candidate stored => Js.eqb candidate stored;
  changedPasswordAfter := fun u iat =>
    match passwordChangedAt u with
    | Some t => iat <? t
    | None => false
    end;
  validate := fun _ u =>
    Js.truthy (password u) && Js.eqb (password u) (passwordConfirm u);
  newObjectId := fun db => if Nat.eqb (length db) 0 then "u0" else "u1"
|}.

Definition environment : Env :=
  {| JWT_SECRET := "secret"; JWT_EXPIRES_IN := "90d";
     JWT_COOKIE_EXPIRES_IN := 90; NODE_ENV := "development" |}.

Definition alice : User :=
  mkUser "a1" (Some "Alice") (Some "alice@example.com") (Some "pass1234")
         None (Some "user") None None None.

(** Alice after asking for a reset with raw token ["tok"], valid until
    time 5000. *)
Definition alice_resetting : User :=
  set_passwordResetExpires (Some 5000)
    (set_passwordResetToken (Some "sha256(tok)") alice).

Definition state (db : list User) (now : Z) (mail : bool)
           (ru : option User) : State :=
  mkState environment db now mail 0%nat ru None [].

Definition no_body : Body :=
  {| b_name := None; b_email := None; b_password := None;
     b_passwordConfirm := None; b_passwordCurrent := None;
     b_role := None |}.

Definition request (auth cookie : option string) (b : Body)
           (tok : string) : Request :=
  {| authorization := auth; cookies_jwt := cookie; body := b;
     params_token := tok; protocol := "http"; host := "127.0.0.1:3000" |}.

Definition body_of (em pw pc cur r : option string) : Body :=
  {| b_name := Some "Bob"; b_email := em; b_password := pw;
     b_passwordConfirm := pc; b_passwordCurrent := cur; b_role := r |}.

(** One stored user, Alice; the mail transport works; it is time 1000. *)
Definition calm : State := state [alice] 1000 true None.

(** The same, with the mail transport down. *)
Definition mail_down : State := state [alice] 1000 false None.

(** Alice is the authenticated user of the request. *)
Definition alice_session : State := state [alice] 1000 true (Some alice).

(** Alice asked for a reset; her token runs out at 5000 and it is 5000. *)
Definition reset_just_expired : State :=
  state [alice_resetting] 5000 true None.

Definition forgot_alice : Request :=
  request None None
    (body_of (Some "alice@example.com") None None None None) "".

Definition forgot_nobody : Request :=
  request None None
    (body_of (Some "nobody@example.com") None None None None) "".

Definition reset_with_tok : Request :=
  request None None
    (body_of None (Some "newpass99") (Some "newpass99") None None) "tok".

Definition login_alice : Request :=
  request None None
    (body_of (Some "alice@example.com") (Some "pass1234") None None None)
    "".

(** A bare "Bearer" header next to a cookie that would verify. *)
Definition bare_bearer : Request :=
  request (Some "Bearer") (Some "jwt:a1") no_body "".

(** A cookie that does not verify. *)
Definition garbage_cookie : Request :=
  request None (Some "garbage") no_body "".

(** Right current password, new password and its confirmation agree. *)
Definition update_ok : Request :=
  request None (Some "jwt:a1")
    (body_of None (Some "newpass99") (Some "newpass99") (Some "pass1234")
             None) "".

(** Right current password, confirmation mistyped. *)
Definition update_mistyped : Request :=
  request None (Some "jwt:a1")
    (body_of None (Some "newpass99") (Some "newpass98") (Some "pass1234")
             None) "".

Definition signup_as_admin : Request :=
  request None None
    (body_of (Some "bob@example.com") (Some "bobspass1") (Some "bobspass1")
             None (Some "admin")) "".

(** Carol asked for a reset with raw token ["tok"], valid until 5000; the
    collection holds her next to Alice. *)
Definition carol_resetting : User :=
  mkUser "c3" (Some "Carol") (Some "carol@example.com") (Some "carolpass")
         None (Some "guide") None (Some "sha256(tok)") (Some 5000).

(** Carol's token is still good at time 1000. *)
Definition reset_pending : State :=
  state [alice; carol_resetting] 1000 true None.

(** New password and confirmation disagree. *)
Definition reset_mistyped : Request :=
  request None None
    (body_of None (Some "newpass99") (Some "newpass98") None None) "tok".

(** The raw token drawn for Alice in [calm], presented later. *)
Definition reset_with_r0 : Request :=
  request None None
    (body_of None (Some "newpass99") (Some "newpass99") None None) "r0".

Definition signup_mistyped : Request :=
  request None None
    (body_of (Some "bob@example.com") (Some "bobspass1") (Some "bobspass2")
             None None) "".

Definition login_unknown : Request :=
  request None None
    (body_of (Some "nobody@example.com") (Some "pass1234") None None None)
    "".

Definition login_wrong_password : Request :=
  request None None
    (body_of (Some "alice@example.com") (Some "wrong") None None None) "".

(** A cookie that verifies and names Alice, no Authorization header. *)
Definition cookie_alice : Request :=
  request None (Some "jwt:a1") no_body "".

(** The usual header, with a cookie that would name somebody else. *)
Definition bearer_alice : Request :=
  request (Some "Bearer jwt:a1") (Some "jwt:zz") no_body "".

(** Alice as [forgotPassword] leaves her when asked in [calm]. *)
Definition alice_issued : User :=
  set_passwordResetExpires (Some 601000)
    (set_passwordResetToken (Some "sha256(r0)") alice).

(** A while after Alice asked for her reset. *)
Definition a_while_later : State := state [alice_issued] 2000 true None.

End Demo.

(* ------------------------------------------------------------------ *)
(** ** Properties of whole runs *)

(** Does character [c] occur in [s]. *)
Fixpoint has_char (c : ascii) (s : string) : bool :=
  match s with
  | EmptyString => false
  | String d r => Ascii.eqb d c || has_char c r
  end.

(** The identifiers of the stored documents, in order. *)
Definition ids (s : State) : list ObjectId := map _id (users s).

(** A computation leaves observation [f] of the state as it found it. *)
Definition preserves {X A} (f : State -> X) (c : M A) : Prop :=
  forall s, f (snd (c s)) = f s.

(** The calls that end the handling of a request: a response, or [next]. *)
Definition terminal (e : Event) : bool :=
  match e with
  | Next _ _ => true
  | Respond _ _ => true
  | _ => false
  end.

(** A computation makes [n] terminal calls when it returns, none when it
    throws. *)
Definition ends {A} (n : nat) (c : M A) : Prop :=
  forall s, exists evs,
    out (snd (c s)) = (out s ++ evs)%list /\
    length (filter terminal evs)
      = match fst (c s) with Ret _ => n | Throw _ => 0%nat end.

(** What every cookie written by this controller looks like: it is the
    [jwt] cookie, it is [httpOnly], and it is [secure] in production only. *)
Definition cookie_ok (e : Env) (ev : Event) : Prop :=
  match ev with
  | Cookie n _ o =>
      n = "jwt" /\ httpOnly o = true /\
      (secure o = true -> NODE_ENV e = "production")
  | _ => True
  end.

(** A computation leaves [process.env] alone and logs only calls that
    satisfy [P] for it. *)
Definition keeps {A} (P : Env -> Event -> Prop) (c : M A) : Prop :=
  forall s,
    env (snd (c s)) = env s /\
    exists evs,
      out (snd (c s)) = (out s ++ evs)%list /\ Forall (P (env s)) evs.

Section Handlers.

Context {K : Collaborators}.

(** The handlers the module exports as they are. *)
Definition plain_handlers : list (Request -> M unit) :=
  [signup; login; logout; protect; isLoggedIn; forgotPassword;
   resetPassword; updatePassword].

(** All of them, [restrictTo] instantiated with a list of roles. *)
Definition all_handlers (roles : list string) : list (Request -> M unit) :=
  restrictTo roles :: plain_handlers.

(** The handlers that never write to the collection. *)
Definition reading_handlers (roles : list string)
  : list (Request -> M unit) :=
  [login; logout; protect; isLoggedIn; restrictTo roles].

(** The document [resetPassword] saves for a found user. *)
Definition reset_doc (req : Request) (user : User) : User :=
  set_passwordResetExpires None
    (set_passwordResetToken None
       (set_passwordConfirm (b_passwordConfirm (body req))
          (set_password (b_password (body req)) user))).

(** The document [forgotPassword] saves for a found user in state [s]. *)
Definition issued_doc (s : State) (user : User) : User :=
  set_passwordResetExpires (Some (clock s + resetWindow))
    (set_passwordResetToken
       (Some (sha256_hex (randomBytes_hex (entropy s)))) user).

(** The document [signup] hands to the store. *)
Definition signup_doc (req : Request) (s : State) : User :=
  mkUser (newObjectId (users s)) (b_name (body req)) (b_email (body req))
         (b_password (body req)) (b_passwordConfirm (body req))
         (b_role (body req)) None None None.

End Handlers.

(* ------------------------------------------------------------------ *)
(** ** Basic facts *)

Ltac unfold_monad :=
  unfold final, catchAsync, next, res_cookie, res_status_json,
    User_findOne_email, User_findById, User_findOne_reset, User_save,
    User_create, createPasswordResetToken, Email_send, signToken, verify in *;
  unfold try_catch, bind, ret, throw, gets, modify in *.

Lemma since_app (s s' : State) (evs : list Event) :
  out s' = (out s ++ evs)%list -> since s s' = evs.
Proof.
  intros H. unfold since. rewrite H.
  rewrite skipn_app, skipn_all, Nat.sub_diag. reflexivity.
Qed.

Lemma since_emit (s : State) (e : Event) : since s (emit e s) = [e].
Proof. apply since_app. reflexivity. Qed.

Lemma signals_inv (code : Z) (s s' : State) :
  signals code s s' ->
  users s' = users s /\ entropy s' = entropy s /\ reqUser s' = reqUser s /\
  localsUser s' = localsUser s /\
  exists e, since s s' = [Next (Some (AppErr e)) []] /\
            statusCode e = Some code.
Proof.
  intros (e & -> & Hc & _). repeat split; try reflexivity.
  exists e. split; [apply since_emit | exact Hc].
Qed.

Lemma emit_inj (e1 e2 : Event) (s : State) : emit e1 s = emit e2 s -> e1 = e2.
Proof.
  intros H. apply (f_equal out) in H. cbn in H.
  apply app_inv_head in H. congruence.
Qed.

Lemma find_none_iff {A} (p : A -> bool) (l : list A) :
  find p l = None <-> forall x, In x l -> p x = false.
Proof.
  split.
  - apply find_none.
  - induction l as [|a l IH]; intros H; cbn; [reflexivity|].
    rewrite (H a (or_introl eq_refl)). apply IH.
    intros x Hx. apply H. right. exact Hx.
Qed.

Lemma by_id_eq (i : ObjectId) (u : User) : by_id i u = true <-> _id u = i.
Proof. unfold by_id. apply String.eqb_eq. Qed.

Lemma Js_eqb_eq (a b : option string) : Js.eqb a b = true <-> a = b.
Proof.
  destruct a as [x|], b as [y|]; cbn; try (split; congruence).
  rewrite String.eqb_eq. split; congruence.
Qed.

(** A saved document is what a later lookup by its identifier returns,
    provided the collection held a document with that identifier. *)
Lemma find_replace_doc (u v : User) (db : list User) :
  findOne (by_id (_id u)) db = Some v ->
  findOne (by_id (_id u)) (replace_doc u db) = Some u.
Proof.
  unfold findOne, replace_doc.
  induction db as [|d db IH]; cbn; [discriminate|].
  destruct (by_id (_id u) d) eqn:E.
  - intros _. assert (Hu : by_id (_id u) u = true) by (now apply by_id_eq).
    now rewrite Hu.
  - rewrite E. exact IH.
Qed.

Lemma find_by_id_id (i : ObjectId) (u : User) (db : list User) :
  findOne (by_id i) db = Some u -> _id u = i.
Proof.
  intros H. apply find_some in H. apply by_id_eq. apply H.
Qed.

Section Properties.

Context {K : Collaborators}.

(** C3.  When no stored document has the hash of the presented token as its
    reset-token hash together with an expiry strictly later than now,
    [resetPassword] hands [next] an operational error with status 400 and
    leaves everything else as it was: the collection, and with it every
    password and reset-token field, is untouched and nothing is written to
    the response. *)
Theorem resetPassword_rejects_stale_token (req : Request) (s : State) :
  (forall u, In u (users s) ->
     ~ (passwordResetToken u = Some (sha256_hex (params_token req)) /\
        exists e, passwordResetExpires u = Some e /\ clock s < e)) ->
  signals 400 s (final resetPassword req s) /\
  users (final resetPassword req s) = users s /\
  since s (final resetPassword req s)
    = [Next (Some (AppErr (new_AppError
         "This token has been expired or user doee not exist" (Some 400))))
         []].
Proof.
  intros Hno.
  assert (Hfind : findOne (by_reset (sha256_hex (params_token req)) (clock s))
                          (users s) = None).
  { apply find_none_iff. intros u Hu. specialize (Hno u Hu).
    unfold by_reset.
    destruct (Js.eqb (passwordResetToken u) _) eqn:E1; [|reflexivity].
    apply Js_eqb_eq in E1. cbn.
    destruct (passwordResetExpires u) as [e|] eqn:E2; [|reflexivity].
    destruct (clock s <? e) eqn:E3; [|reflexivity].
    exfalso. apply Hno. split; [exact E1|].
    exists e. split; [reflexivity|]. now apply Z.ltb_lt. }
  unfold resetPassword. unfold_monad. cbn. rewrite Hfind. cbn.
  repeat split.
  - eexists. repeat split.
  - apply since_emit.
Qed.

(** C6.  When the posted email resolves to no user, [forgotPassword] hands
    [next] an operational error with status 404 and does nothing else: no
    random draw is made for a reset token, no document is written, no mail
    is sent. *)
Theorem forgotPassword_unknown_email (req : Request) (s : State) :
  findOne (by_email (b_email (body req))) (users s) = None ->
  signals 404 s (final forgotPassword req s) /\
  entropy (final forgotPassword req s) = entropy s /\
  users (final forgotPassword req s) = users s /\
  since s (final forgotPassword req s)
    = [Next (Some (AppErr (new_AppError
         "There is no user with that email address !" (Some 404)))) []].
Proof.
  intros Hfind.
  unfold forgotPassword. unfold_monad. cbn. rewrite Hfind. cbn.
  repeat split.
  - eexists. repeat split.
  - apply since_emit.
Qed.

(** What [createSendToken] does: one cookie, then one response whose body
    carries the freshly signed token and the user without its password. *)
Lemma createSendToken_run (user : User) (code : Z) (s : State) :
  exists opts b,
    createSendToken user code s
      = (Ret tt, emit (Respond code b) (emit (Cookie "jwt"
           (jwt_sign (_id user) (JWT_SECRET (env s)) (JWT_EXPIRES_IN (env s))
                     (clock s)) opts) s)) /\
    j_status b = "success" /\
    j_token b = Some (jwt_sign (_id user) (JWT_SECRET (env s))
                               (JWT_EXPIRES_IN (env s)) (clock s)) /\
    j_user b = Some (set_password None user) /\
    httpOnly opts = true.
Proof.
  unfold createSendToken. unfold_monad. cbn.
  eexists. eexists. split; [reflexivity|]. cbn. repeat split.
Qed.

Arguments createSendToken : simpl never.

(** C5.  [login]: a missing (or empty) email or password gives an
    operational error with status 400; with both provided, an email that
    resolves to no user, or a password that does not verify, gives an
    operational error with status 401; with both provided, a resolved user
    and a password that verifies, the response has status 200 and carries a
    token signed for that user. *)
Theorem login_outcomes (req : Request) (s : State) :
  let em := b_email (body req) in
  let pw := b_password (body req) in
  let s' := final login req s in
  (Js.truthy em = false \/ Js.truthy pw = false -> signals 400 s s') /\
  (Js.truthy em = true -> Js.truthy pw = true ->
   (findOne (by_email em) (users s) = None \/
    exists u, findOne (by_email em) (users s) = Some u /\
              correctPassword pw (password u) = false) ->
   signals 401 s s') /\
  (forall u,
     Js.truthy em = true -> Js.truthy pw = true ->
     findOne (by_email em) (users s) = Some u ->
     correctPassword pw (password u) = true ->
     exists opts b,
       since s s'
         = [Cookie "jwt" (jwt_sign (_id u) (JWT_SECRET (env s))
                                   (JWT_EXPIRES_IN (env s)) (clock s)) opts;
            Respond 200 b] /\
       j_status b = "success" /\
       j_token b = Some (jwt_sign (_id u) (JWT_SECRET (env s))
                                  (JWT_EXPIRES_IN (env s)) (clock s)) /\
       j_user b = Some (set_password None u) /\
       users s' = users s).
Proof.
  cbv zeta. split; [|split].
  - intros H. unfold login. unfold_monad.
    assert (E : negb (Js.truthy (b_email (body req)))
                || negb (Js.truthy (b_password (body req))) = true).
    { destruct H as [-> | ->]; cbn; [reflexivity | apply orb_true_r]. }
    rewrite E. cbn. eexists. repeat split.
  - intros He Hp H. unfold login. unfold_monad. cbv beta zeta.
    rewrite He, Hp. cbn.
    destruct H as [-> | (u & -> & ->)]; cbn; eexists; repeat split.
  - intros u He Hp Hu Hc. unfold login, final, catchAsync, try_catch.
    cbv beta zeta. rewrite He, Hp. cbn. rewrite Hu, Hc.
    change (negb true) with false. cbv iota.
    destruct (createSendToken_run u 200 s) as (opts & b & -> & H1 & H2 & H3 & _).
    exists opts, b. cbn. repeat split; try assumption.
    apply since_app. cbn. rewrite <- app_assoc. reflexivity.
Qed.

(** C8.  [isLoggedIn] never throws and never signals an error: whatever the
    cookie, the verification result and the collection, it makes exactly one
    call, [next()] with no argument.  When the cookie is present, verifies,
    names a stored user and that user has not changed password since the
    token was issued, it sets [res.locals.user] to that user before calling
    [next]; in every other case nothing but the call to [next] happens. *)
Theorem isLoggedIn_never_fails (req : Request) (s : State) :
  fst (isLoggedIn req s) = Ret tt /\
  since s (final isLoggedIn req s) = [Next None []] /\
  (forall tok p u,
     cookies_jwt req = Some tok -> Js.truthy (Some tok) = true ->
     jwt_verify tok (JWT_SECRET (env s)) (clock s) = inr p ->
     findOne (by_id (pl_id p)) (users s) = Some u ->
     changedPasswordAfter u (pl_iat p) = false ->
     final isLoggedIn req s
       = emit (Next None []) (set_localsUser (Some u) s)) /\
  (~ (exists tok p u,
        cookies_jwt req = Some tok /\ Js.truthy (Some tok) = true /\
        jwt_verify tok (JWT_SECRET (env s)) (clock s) = inr p /\
        findOne (by_id (pl_id p)) (users s) = Some u /\
        changedPasswordAfter u (pl_iat p) = false) ->
   final isLoggedIn req s = emit (Next None []) s).
Proof.
  unfold isLoggedIn, final.
  destruct (cookies_jwt req) as [[|c t]|] eqn:Ec.
  - cbn. repeat split; [apply since_emit|].
    intros tok p u Htok Htr. injection Htok as <-. discriminate Htr.
  - unfold_monad.
    destruct (jwt_verify (String c t) (JWT_SECRET (env s)) (clock s))
      as [e|p] eqn:Ev; cbn.
    { repeat split; [apply since_emit|].
      intros tok p u Htok _ Hv. injection Htok as <-. congruence. }
    destruct (findOne (by_id (pl_id p)) (users s)) as [u|] eqn:Eu; cbn.
    2:{ repeat split; [apply since_emit|].
        intros tok p' u' Htok _ Hv Hf. injection Htok as <-.
        rewrite Ev in Hv. injection Hv as <-. congruence. }
    destruct (changedPasswordAfter u (pl_iat p)) eqn:Ech; cbn.
    { repeat split; [apply since_emit|].
      intros tok p' u' Htok _ Hv Hf Hc. injection Htok as <-.
      rewrite Ev in Hv. injection Hv as <-.
      rewrite Eu in Hf. injection Hf as <-. congruence. }
    split; [reflexivity|]. split; [apply since_app; reflexivity|]. split.
    + intros tok p' u' Htok _ Hv Hf _. injection Htok as <-.
      rewrite Ev in Hv. injection Hv as <-.
      rewrite Eu in Hf. injection Hf as <-. reflexivity.
    + intros Hn. exfalso. apply Hn. exists (String c t), p, u.
      repeat split; assumption.
  - cbn. repeat split; [apply since_emit|].
    intros tok p u Htok. discriminate Htok.
Qed.

(** [protect] looks at the request only through the token it extracts. *)
Lemma protect_by_token (r1 r2 : Request) (s : State) :
  protect_token r1 = protect_token r2 -> protect r1 s = protect r2 s.
Proof. intros H. unfold protect, catchAsync. now rewrite H. Qed.

Lemma startsWith_truthy (a p : string) :
  p <> EmptyString -> Js.startsWith a p = true -> Js.truthy (Some a) = true.
Proof.
  intros Hp H. destruct a as [|c a]; [|reflexivity].
  destruct p; [congruence | discriminate].
Qed.

Lemma protect_no_token (req : Request) (s : State) :
  Js.truthy (protect_token req) = false ->
  final protect req s
    = emit (Next (Some (AppErr (new_AppError
        "Authorization failed !. You are not log in !" (Some 401)))) []) s.
Proof.
  intros H. unfold protect. unfold_monad.
  destruct (protect_token req) as [[|c t]|]; try reflexivity. discriminate.
Qed.

(** C10.  In [protect], an Authorization header that starts with "Bearer"
    decides the token on its own: the token is the second piece of the header
    split at spaces, changing the jwt cookie changes nothing, and when that
    second piece is absent or empty the request is turned away with an
    operational error of status 401, whatever the cookie holds. *)
Theorem protect_bearer_precedence (req : Request) (s : State) (a : string) :
  authorization req = Some a ->
  Js.startsWith a "Bearer" = true ->
  protect_token req = Js.index (Js.split " "%char a) 1 /\
  (forall c, protect (set_cookies_jwt c req) s = protect req s) /\
  (Js.truthy (Js.index (Js.split " "%char a) 1) = false ->
   forall c, signals 401 s (final protect (set_cookies_jwt c req) s)).
Proof.
  intros Ha Hb.
  assert (Ht : forall c, protect_token (set_cookies_jwt c req)
                         = Js.index (Js.split " "%char a) 1).
  { intros c. unfold protect_token. cbn [authorization set_cookies_jwt].
    rewrite Ha, Hb.
    rewrite (startsWith_truthy a "Bearer") by (congruence || assumption).
    reflexivity. }
  assert (Hr : protect_token req = Js.index (Js.split " "%char a) 1).
  { unfold protect_token. rewrite Ha, Hb.
    rewrite (startsWith_truthy a "Bearer") by (congruence || assumption).
    reflexivity. }
  split; [exact Hr|]. split.
  - intros c. apply protect_by_token. now rewrite Ht, Hr.
  - intros Hf c. rewrite protect_no_token by (now rewrite Ht).
    eexists. repeat split.
Qed.

(** C2, as the code has it.  [protect] hands [next] an operational error
    with status 401 exactly when the request carries no token, or the user
    named by the verified token no longer exists, or that user changed
    password after the token was issued.  When the token fails verification
    the error thrown by the JWT library is forwarded to [next] as it is (it is
    not an operational error and carries no status code).  In every remaining
    case the resolved user is attached to [req.user] and [res.locals.user] and
    [next()] is called without argument. *)
Theorem protect_outcome (req : Request) (s : State) :
  let s' := final protect req s in
  (signals 401 s s' <->
   no_token req \/ user_gone req s \/ password_changed req s) /\
  (forall tok e,
     protect_token req = Some tok -> Js.truthy (Some tok) = true ->
     jwt_verify tok (JWT_SECRET (env s)) (clock s) = inl e ->
     s' = emit (Next (Some (JwtErr e)) []) s) /\
  (~ (no_token req \/ token_invalid req s \/ user_gone req s \/
      password_changed req s) ->
   exists i iat u,
     token_names req s i iat /\ findOne (by_id i) (users s) = Some u /\
     s' = emit (Next None [])
            (set_localsUser (Some u) (set_reqUser (Some u) s))).
Proof.
  cbv zeta. unfold no_token, token_invalid, user_gone, password_changed,
    token_names.
  destruct (Js.truthy (protect_token req)) eqn:Et.
  2:{ rewrite protect_no_token by assumption. split; [|split].
      - split; [now left|]. intros _. eexists. repeat split.
      - intros tok e Htok Htr. rewrite Htok in Et. congruence.
      - intros H. exfalso. apply H. now left. }
  destruct (protect_token req) as [tok|] eqn:Etok; [|discriminate].
  assert (Hrun : final protect req s =
    match jwt_verify tok (JWT_SECRET (env s)) (clock s) with
    | inl e => emit (Next (Some (JwtErr e)) []) s
    | inr p =>
        match findOne (by_id (pl_id p)) (users s) with
        | None => emit (Next (Some (AppErr (new_AppError
            "The user belonging to this token no longer exist !"
            (Some 401)))) []) s
        | Some u =>
            if changedPasswordAfter u (pl_iat p)
            then emit (Next (Some (AppErr (new_AppError
              "User recently has changed password, please login again !"
              (Some 401)))) []) s
            else emit (Next None [])
                   (set_localsUser (Some u) (set_reqUser (Some u) s))
        end
    end).
  { unfold protect. unfold_monad. rewrite Etok.
    destruct tok as [|c t]; [discriminate|].
    destruct (jwt_verify (String c t) _ _) as [e|p]; cbn; [reflexivity|].
    destruct (findOne _ _) as [u|]; cbn; [|reflexivity].
    destruct (changedPasswordAfter u _); reflexivity. }
  rewrite Hrun. clear Hrun.
  destruct (jwt_verify tok (JWT_SECRET (env s)) (clock s)) as [e|[i iat]] eqn:Ev.
  { split; [|split].
    - split.
      + intros (e' & He' & _). apply emit_inj in He'. discriminate.
      + intros [H | [(i & iat & (t & Ht & _ & Hv) & _)
                    | (i & iat & u & (t & Ht & _ & Hv) & _)]];
          try discriminate; injection Ht as <-; congruence.
    - intros t e' Ht _ Hv. injection Ht as <-. congruence.
    - intros H. exfalso. apply H. right. left. exists tok, e.
      repeat split; assumption. }
  cbn [pl_id pl_iat].
  destruct (findOne (by_id i) (users s)) as [u|] eqn:Eu.
  2:{ split; [|split].
      - split; [|intros _; eexists; repeat split].
        intros _. right. left. exists i, iat. split; [|assumption].
        exists tok. repeat split; assumption.
      - intros t e' Ht _ Hv. injection Ht as <-. congruence.
      - intros H. exfalso. apply H. right. right. left. exists i, iat.
        split; [|assumption]. exists tok. repeat split; assumption. }
  destruct (changedPasswordAfter u iat) eqn:Ech.
  { split; [|split].
    - split; [|intros _; eexists; repeat split].
      intros _. right. right. exists i, iat, u. split; [|split; assumption].
      exists tok. repeat split; assumption.
    - intros t e' Ht _ Hv. injection Ht as <-. congruence.
    - intros H. exfalso. apply H. right. right. right. exists i, iat, u.
      split; [|split; assumption]. exists tok. repeat split; assumption. }
  split; [|split].
  - split.
    + intros (e' & He' & _). apply (f_equal out) in He'. cbn in He'.
      apply app_inv_head in He'. discriminate.
    + intros [H | [(i' & iat' & (t & Ht & _ & Hv) & Hg)
                  | (i' & iat' & u' & (t & Ht & _ & Hv) & Hu' & Hc')]];
        try discriminate; injection Ht as <-; rewrite Ev in Hv;
        injection Hv as <- <-; congruence.
  - intros t e' Ht _ Hv. injection Ht as <-. congruence.
  - intros _. exists i, iat, u. split; [|split; [assumption|reflexivity]].
    exists tok. repeat split; assumption.
Qed.

(** C4, as the code has it.  For the authenticated user, as stored:
    when the supplied current password does not verify, [updatePassword]
    hands [next] an operational error with status 401 and writes nothing;
    when it verifies and the store's validators accept the document with the
    new password and confirmation, that document is saved and a response
    with status 200 carries a newly signed token; when it verifies and the
    validators reject the document, the validation error is forwarded to
    [next], nothing is written and no token is issued. *)
Theorem updatePassword_outcomes (req : Request) (s : State) (me user : User) :
  reqUser s = Some me ->
  findOne (by_id (_id me)) (users s) = Some user ->
  let s' := final updatePassword req s in
  let user' :=
    set_passwordConfirm (b_passwordConfirm (body req))
      (set_password (b_password (body req)) user) in
  let token :=
    jwt_sign (_id user) (JWT_SECRET (env s)) (JWT_EXPIRES_IN (env s))
             (clock s) in
  (correctPassword (b_passwordCurrent (body req)) (password user) = false ->
   signals 401 s s' /\ users s' = users s) /\
  (correctPassword (b_passwordCurrent (body req)) (password user) = true ->
   validate (users s) user' = true ->
   users s' = replace_doc user' (users s) /\
   findOne (by_id (_id me)) (users s') = Some user' /\
   password user' = b_password (body req) /\
   exists opts b,
     since s s' = [Cookie "jwt" token opts; Respond 200 b] /\
     j_token b = Some token /\ j_user b = Some (set_password None user')) /\
  (correctPassword (b_passwordCurrent (body req)) (password user) = true ->
   validate (users s) user' = false ->
   s' = emit (Next (Some ValidationErr) []) s).
Proof.
  intros Hme Hfind. cbv zeta.
  assert (Hid : _id user = _id me) by (eapply find_by_id_id; eassumption).
  unfold updatePassword. unfold_monad. rewrite Hme. cbv beta iota.
  rewrite Hfind.
  split; [|split].
  - intros ->. cbn. split; [|reflexivity]. eexists. repeat split.
  - intros -> Hv. cbn. rewrite Hv. cbn.
    match goal with
    | |- context [createSendToken ?u ?c ?st] =>
        destruct (createSendToken_run u c st)
          as (opts & b & -> & _ & H2 & H3 & _)
    end.
    cbn. repeat split.
    + rewrite <- Hid.
      change (_id user) with (_id (set_passwordConfirm
        (b_passwordConfirm (body req))
        (set_password (b_password (body req)) user))).
      eapply find_replace_doc. cbn [_id set_passwordConfirm set_password].
      rewrite Hid. eassumption.
    + exists opts, b. repeat split; try assumption.
      apply since_app. cbn. rewrite <- app_assoc. reflexivity.
  - intros -> Hv. cbn. rewrite Hv. cbn. reflexivity.
Qed.

(** C9.  [signup] passes the request body's [role], along with [name],
    [email], [password] and [passwordConfirm], to the creation of the user:
    when the store accepts the document, the collection gains exactly one
    document and its role is the one the client sent. *)
Theorem signup_forwards_role (req : Request) (s : State) :
  let b := body req in
  let s' := final signup req s in
  validate (users s)
    (mkUser (newObjectId (users s)) (b_name b) (b_email b) (b_password b)
            (b_passwordConfirm b) (b_role b) None None None) = true ->
  exists u,
    users s' = (users s ++ [u])%list /\
    role u = b_role b /\ name u = b_name b /\ email u = b_email b /\
    password u = b_password b /\ passwordConfirm u = b_passwordConfirm b /\
    (mailUp s = true ->
     exists url opts b',
       since s s' = [Mail Welcome u url;
                     Cookie "jwt" (jwt_sign (_id u) (JWT_SECRET (env s))
                                     (JWT_EXPIRES_IN (env s)) (clock s)) opts;
                     Respond 201 b'] /\
       j_user b' = Some (set_password None u)).
Proof.
  cbv zeta. intros Hv.
  eexists. unfold signup. unfold_monad. rewrite Hv. cbn.
  destruct (mailUp s) eqn:Em.
  - match goal with
    | |- context [createSendToken ?u ?c ?st] =>
        destruct (createSendToken_run u c st)
          as (opts & b & -> & _ & H2 & H3 & _)
    end.
    cbn. split; [reflexivity|].
    repeat (split; [reflexivity|]). intros _.
    eexists. exists opts, b. split; [|exact H3].
    apply since_app. cbn. rewrite <- !app_assoc. reflexivity.
  - cbn. repeat (split; [reflexivity|]). discriminate.
Qed.

(** *** Redaction, as an invariant of computations *)

Lemma redacting_quiet {A} (c : M A) :
  (forall s, out (snd (c s)) = out s) -> redacting c.
Proof.
  intros H s. exists []. rewrite H, app_nil_r. split; constructor.
Qed.

Lemma redacting_emit (e : Event) : redacted e -> redacting (modify (emit e)).
Proof.
  intros H s. exists [e]. split; [reflexivity|]. repeat constructor. exact H.
Qed.

Lemma redacting_next (e : option JsError) (r : list Z) : redacting (next e r).
Proof. apply redacting_emit. exact I. Qed.

Lemma redacting_bind {A B} (c : M A) (k : A -> M B) :
  redacting c -> (forall a, redacting (k a)) -> redacting (bind c k).
Proof.
  intros Hc Hk s. unfold bind.
  destruct (Hc s) as (e1 & H1 & F1).
  destruct (c s) as [[a|e] s1]; cbn in H1.
  - destruct (Hk a s1) as (e2 & H2 & F2).
    exists (e1 ++ e2)%list. rewrite H2, H1, app_assoc. split; [reflexivity|].
    apply Forall_app. now split.
  - exists e1. now split.
Qed.

Lemma redacting_try_catch {A} (c : M A) (h : JsError -> M A) :
  redacting c -> (forall e, redacting (h e)) -> redacting (try_catch c h).
Proof.
  intros Hc Hh s. unfold try_catch.
  destruct (Hc s) as (e1 & H1 & F1).
  destruct (c s) as [[a|e] s1]; cbn in H1.
  - exists e1. now split.
  - destruct (Hh e s1) as (e2 & H2 & F2).
    exists (e1 ++ e2)%list. rewrite H2, H1, app_assoc. split; [reflexivity|].
    apply Forall_app. now split.
Qed.

Lemma redacting_createSendToken (user : User) (code : Z) :
  redacting (createSendToken user code).
Proof.
  intros s. destruct (createSendToken_run user code s)
    as (opts & b & -> & _ & _ & Hu & _).
  eexists. split.
  - cbn. rewrite <- app_assoc. reflexivity.
  - repeat constructor. cbn. now rewrite Hu.
Qed.

Lemma redacting_Email_send (k : MailKind) (u : User) (url : string) :
  redacting (Email_send k u url).
Proof.
  intros s. unfold Email_send. destruct (mailUp s).
  - exists [Mail k u url]. split; [reflexivity|]. repeat constructor.
  - exists []. cbn. rewrite app_nil_r. split; constructor.
Qed.

Ltac quiet :=
  apply redacting_quiet; intros; unfold_monad;
  repeat match goal with
         | |- context [if ?b then _ else _] => destruct b
         | |- context [match ?x with _ => _ end] => destruct x
         end; reflexivity.

Ltac redact :=
  repeat (intros;
    first [ apply redacting_createSendToken
          | apply redacting_next
          | apply redacting_Email_send
          | apply redacting_bind
          | apply redacting_try_catch
          | match goal with
            | |- redacting (if ?b then _ else _) => destruct b
            | |- redacting (match ?x with _ => _ end) => destruct x
            end
          | quiet ]).

Lemma redacting_signup (req : Request) : redacting (signup req).
Proof. unfold signup, catchAsync. cbv zeta. redact. Qed.

Lemma redacting_login (req : Request) : redacting (login req).
Proof. unfold login, catchAsync. cbv zeta. redact. Qed.

Lemma redacting_resetPassword (req : Request) :
  redacting (resetPassword req).
Proof. unfold resetPassword, catchAsync. cbv zeta. redact. Qed.

Lemma redacting_updatePassword (req : Request) :
  redacting (updatePassword req).
Proof. unfold updatePassword, catchAsync. cbv zeta. redact. Qed.

Lemma redacting_since {A} (c : M A) (s : State) :
  redacting c -> Forall redacted (since s (snd (c s))).
Proof.
  intros H. destruct (H s) as (evs & E & F). now rewrite (since_app _ _ _ E).
Qed.

(** C7.  Whatever [signup], [login], [resetPassword] and [updatePassword]
    write as a response, a body that carries a user carries it with the
    password field undefined; and [createSendToken], through which all four
    answer, writes its one response after setting the password of the user it
    serializes to undefined. *)
Theorem responses_never_carry_password (req : Request) (s : State) :
  Forall redacted (since s (final signup req s)) /\
  Forall redacted (since s (final login req s)) /\
  Forall redacted (since s (final resetPassword req s)) /\
  Forall redacted (since s (final updatePassword req s)) /\
  (forall user code, exists tok opts b,
     since s (snd (createSendToken user code s))
       = [Cookie "jwt" tok opts; Respond code b] /\
     j_user b = Some (set_password None user) /\
     password (set_password None user) = None).
Proof.
  unfold final. repeat split.
  - apply redacting_since, redacting_signup.
  - apply redacting_since, redacting_login.
  - apply redacting_since, redacting_resetPassword.
  - apply redacting_since, redacting_updatePassword.
  - intros user code.
    destruct (createSendToken_run user code s)
      as (opts & b & -> & _ & _ & Hu & _).
    eexists. exists opts, b. repeat split; [|exact Hu].
    apply since_app. cbn. rewrite <- app_assoc. reflexivity.
Qed.

Lemma find_by_id_of_In (u : User) (db : list User) :
  In u db -> exists v, findOne (by_id (_id u)) db = Some v.
Proof.
  unfold findOne. induction db as [|d db IH]; intros H; [destruct H|].
  cbn. destruct (by_id (_id u) d) eqn:E; [now exists d|].
  destruct H as [-> | H]; [|now apply IH].
  assert (by_id (_id u) u = true) by (now apply by_id_eq). congruence.
Qed.

(** What [forgotPassword] does when the user is found and the mail
    transport is down: the reset fields that were just set are cleared again
    and saved, and [next] is called with two arguments, an error built from
    the message alone and the number 500. *)
Lemma forgotPassword_mail_down (req : Request) (s : State) (user : User) :
  findOne (by_email (b_email (body req))) (users s) = Some user ->
  mailUp s = false ->
  let s' := final forgotPassword req s in
  (exists saved,
     findOne (by_id (_id user)) (users s') = Some saved /\
     passwordResetToken saved = None /\ passwordResetExpires saved = None) /\
  since s s'
    = [Next (Some (AppErr (new_AppError
         "There was an error sending email, try again !" None))) [500]].
Proof.
  intros Hfind Hmail. cbv zeta.
  destruct (find_by_id_of_In user (users s)) as (v & Hv).
  { apply find_some in Hfind. apply Hfind. }
  unfold forgotPassword. unfold_monad. rewrite Hfind. cbn. rewrite Hmail. cbn.
  split.
  - eexists. split.
    + pose (u1 := set_passwordResetExpires (Some (clock s + resetWindow))
                    (set_passwordResetToken
                       (Some (sha256_hex (randomBytes_hex (entropy s))))
                       user)).
      pose (u2 := set_passwordResetExpires None
                    (set_passwordResetToken None u1)).
      apply (find_replace_doc u2 u1 (replace_doc u1 (users s))).
      apply (find_replace_doc u1 v (users s)).
      exact Hv.
    + split; reflexivity.
  - apply since_app. reflexivity.
Qed.

End Properties.

(* ------------------------------------------------------------------ *)
(** ** The handlers on concrete requests *)

Module Scenario.

Import Demo.

#[local] Existing Instance collaborators.

(** C1.  On the request of a stored user with the mail transport down,
    [forgotPassword] does clear and save the reset fields, but the error it
    hands to [next] is built from the message alone: its status code is
    undefined, and the number 500 travels as a second argument of [next]
    instead.  No operational error with status 500 is signalled. *)
Theorem forgotPassword_mail_failure_drops_status :
  (exists saved,
     findOne (by_id "a1") (users (final forgotPassword forgot_alice mail_down))
       = Some saved /\
     passwordResetToken saved = None /\
     passwordResetExpires saved = None) /\
  (exists e,
     since mail_down (final forgotPassword forgot_alice mail_down)
       = [Next (Some (AppErr e)) [500]] /\
     statusCode e = None /\ isOperational e = true) /\
  ~ signals 500 mail_down (final forgotPassword forgot_alice mail_down).
Proof.
  destruct (forgotPassword_mail_down forgot_alice mail_down alice
              eq_refl eq_refl) as [Hsaved Hout].
  split; [exact Hsaved|]. split.
  - eexists. split; [exact Hout|]. split; reflexivity.
  - intros (e & He & _). apply (f_equal out) in He.
    vm_compute in He. discriminate He.
Qed.

(** The claim of C2 taken literally fails on a cookie that does not
    verify: the token is invalid, yet what reaches [next] is the JWT
    library's error, not an operational error with status 401. *)
Lemma protect_bad_token_is_not_401 :
  ~ (signals 401 calm (final protect garbage_cookie calm) <->
     no_token garbage_cookie \/ token_invalid garbage_cookie calm \/
     user_gone garbage_cookie calm \/ password_changed garbage_cookie calm).
Proof.
  intros [_ H].
  destruct H as (e & He & _).
  - right. left. exists "garbage", JsonWebTokenError. repeat split.
  - apply (f_equal out) in He. vm_compute in He. discriminate He.
Qed.

Lemma protect_outcome_witness :
  jwt_verify "garbage" (JWT_SECRET (env calm)) (clock calm)
    = inl JsonWebTokenError /\
  final protect garbage_cookie calm
    = emit (Next (Some (JwtErr JsonWebTokenError)) []) calm.
Proof.
  split; [reflexivity|].
  apply (proj1 (proj2 (protect_outcome garbage_cookie calm))
           "garbage" JsonWebTokenError); reflexivity.
Defined.

Lemma resetPassword_rejects_stale_token_witness :
  findOne (by_reset (sha256_hex "tok") 4999) (users reset_just_expired)
    = Some alice_resetting /\
  signals 400 reset_just_expired
    (final resetPassword reset_with_tok reset_just_expired) /\
  users (final resetPassword reset_with_tok reset_just_expired)
    = [alice_resetting].
Proof.
  split; [reflexivity|].
  destruct (resetPassword_rejects_stale_token reset_with_tok
              reset_just_expired) as (H1 & H2 & _).
  - intros u [<- | []] (_ & e & He & Hlt).
    cbn in He, Hlt. injection He as <-. lia.
  - split; [exact H1 | exact H2].
Defined.

Lemma forgotPassword_unknown_email_witness :
  findOne (by_email (b_email (body forgot_nobody))) (users calm) = None /\
  signals 404 calm (final forgotPassword forgot_nobody calm) /\
  entropy (final forgotPassword forgot_nobody calm) = entropy calm.
Proof.
  split; [reflexivity|].
  destruct (forgotPassword_unknown_email forgot_nobody calm eq_refl)
    as (H1 & H2 & _).
  split; [exact H1 | exact H2].
Defined.

Lemma login_outcomes_witness :
  findOne (by_email (b_email (body login_alice))) (users calm)
    = Some alice /\
  correctPassword (b_password (body login_alice)) (password alice) = true /\
  exists opts b,
    since calm (final login login_alice calm)
      = [Cookie "jwt" "jwt:a1" opts; Respond 200 b] /\
    j_token b = Some "jwt:a1".
Proof.
  assert (Hu : findOne (by_email (b_email (body login_alice))) (users calm)
               = Some alice) by reflexivity.
  assert (Hc : correctPassword (b_password (body login_alice))
                               (password alice) = true) by reflexivity.
  split; [exact Hu|]. split; [exact Hc|].
  destruct (proj2 (proj2 (login_outcomes login_alice calm)) alice
              eq_refl eq_refl Hu Hc)
    as (opts & b & H1 & _ & H2 & _).
  exists opts, b. split; [exact H1 | exact H2].
Defined.

Lemma protect_bearer_precedence_witness :
  authorization bare_bearer = Some "Bearer" /\
  cookies_jwt bare_bearer = Some "jwt:a1" /\
  jwt_verify "jwt:a1" (JWT_SECRET (env calm)) (clock calm)
    = inr {| pl_id := "a1"; pl_iat := 0 |} /\
  signals 401 calm (final protect bare_bearer calm).
Proof.
  split; [reflexivity|]. split; [reflexivity|]. split; [reflexivity|].
  exact (proj2 (proj2 (protect_bearer_precedence bare_bearer calm "Bearer"
                         eq_refl eq_refl))
           eq_refl (Some "jwt:a1")).
Defined.

(** The claim of C4 taken literally fails when the confirmation is
    mistyped: the current password verifies, yet the stored password is not
    the new one and no response carries a token. *)
Lemma updatePassword_validators_can_reject :
  ~ (correctPassword (b_passwordCurrent (body update_mistyped))
                     (password alice) = true ->
     (exists u,
        findOne (by_id "a1")
          (users (final updatePassword update_mistyped alice_session))
          = Some u /\
        password u = b_password (body update_mistyped)) /\
     (exists code b tok,
        In (Respond code b)
           (since alice_session
                  (final updatePassword update_mistyped alice_session)) /\
        j_token b = Some tok)).
Proof.
  intros H. destruct H as [(u & Hu & Hp) _]; [reflexivity|].
  vm_compute in Hu. injection Hu as <-. discriminate Hp.
Qed.

Lemma updatePassword_outcomes_witness :
  reqUser alice_session = Some alice /\
  correctPassword (b_passwordCurrent (body update_ok)) (password alice)
    = true /\
  (exists u,
     findOne (by_id "a1")
       (users (final updatePassword update_ok alice_session)) = Some u /\
     password u = Some "newpass99") /\
  exists opts b,
    since alice_session (final updatePassword update_ok alice_session)
      = [Cookie "jwt" "jwt:a1" opts; Respond 200 b] /\
    j_token b = Some "jwt:a1".
Proof.
  assert (Hc : correctPassword (b_passwordCurrent (body update_ok))
                               (password alice) = true) by reflexivity.
  split; [reflexivity|]. split; [exact Hc|].
  destruct (proj1 (proj2 (updatePassword_outcomes update_ok alice_session
                            alice alice eq_refl eq_refl))
              Hc ltac:(reflexivity))
    as (_ & Hf & Hp & opts & b & Hs & Ht & _).
  split.
  - eexists. split; [exact Hf | exact Hp].
  - exists opts, b. split; [exact Hs | exact Ht].
Defined.

Lemma signup_forwards_role_witness :
  b_role (body signup_as_admin) = Some "admin" /\
  exists u,
    users (final signup signup_as_admin calm) = [alice; u] /\
    role u = Some "admin".
Proof.
  split; [reflexivity|].
  destruct (signup_forwards_role signup_as_admin calm)
    as (u & Hu & Hr & _); [reflexivity|].
  exists u. split; [exact Hu | exact Hr].
Defined.

Lemma isLoggedIn_never_fails_witness :
  cookies_jwt cookie_alice = Some "jwt:a1" /\
  jwt_verify "jwt:a1" (JWT_SECRET (env calm)) (clock calm)
    = inr {| pl_id := "a1"; pl_iat := 0 |} /\
  findOne (by_id "a1") (users calm) = Some alice /\
  final isLoggedIn cookie_alice calm
    = emit (Next None []) (set_localsUser (Some alice) calm) /\
  final isLoggedIn garbage_cookie calm = emit (Next None []) calm.
Proof.
  split; [reflexivity|]. split; [reflexivity|]. split; [reflexivity|].
  split.
  - apply (proj1 (proj2 (proj2 (isLoggedIn_never_fails cookie_alice calm)))
             "jwt:a1" {| pl_id := "a1"; pl_iat := 0 |} alice); reflexivity.
  - apply (proj2 (proj2 (proj2 (isLoggedIn_never_fails garbage_cookie
                                  calm)))).
    intros (tok & p & u & Htok & _ & Hv & _).
    injection Htok as <-. discriminate Hv.
Defined.

End Scenario.

(* ------------------------------------------------------------------ *)
(** ** Invariants of every handler *)

Section Invariants.

Context {K : Collaborators}.

(** Destructs whatever a goal still branches on. *)
Ltac branches :=
  repeat match goal with
         | |- context [if ?b then _ else _] => destruct b; cbn
         | |- context [match ?x with _ => _ end] => destruct x; cbn
         end.

Ltac run_primitive := unfold createSendToken; unfold_monad; cbn; branches.

(** *** What a run leaves alone *)

Lemma preserves_bind {X A B} (f : State -> X) (c : M A) (k : A -> M B) :
  preserves f c -> (forall a, preserves f (k a)) -> preserves f (bind c k).
Proof.
  intros Hc Hk s. unfold bind. specialize (Hc s).
  destruct (c s) as [[a|e] s1]; cbn in *; [|exact Hc].
  now rewrite Hk.
Qed.

Lemma preserves_try_catch {X A} (f : State -> X) (c : M A)
      (h : JsError -> M A) :
  preserves f c -> (forall e, preserves f (h e)) ->
  preserves f (try_catch c h).
Proof.
  intros Hc Hh s. unfold try_catch. specialize (Hc s).
  destruct (c s) as [[a|e] s1]; cbn in *; [exact Hc|].
  now rewrite Hh.
Qed.

Lemma ids_replace_doc (u : User) (db : list User) :
  map _id (replace_doc u db) = map _id db.
Proof.
  unfold replace_doc. induction db as [|d db IH]; cbn; [reflexivity|].
  rewrite IH. destruct (by_id (_id u) d) eqn:E; [|reflexivity].
  apply by_id_eq in E. now rewrite E.
Qed.

Lemma preserves_ids_save (v : bool) (u : User) :
  preserves ids (User_save v u).
Proof.
  intros s. unfold User_save, ids.
  destruct (v && negb (validate (users s) u)); cbn; [reflexivity|].
  apply ids_replace_doc.
Qed.

Ltac preserved :=
  repeat (intros;
    first [ apply preserves_ids_save
          | apply preserves_bind
          | apply preserves_try_catch
          | match goal with
            | |- preserves _ (if ?b then _ else _) => destruct b
            | |- preserves _ (match ?x with _ => _ end) => destruct x
            end
          | solve [intros ?; run_primitive; reflexivity] ]).

(** X9.  The handlers that only read.  [login], [logout],
    [protect], [isLoggedIn] and [restrictTo] leave the user collection and
    the random source exactly as they found them, whatever the request and
    whatever they answer. *)
Theorem reading_handlers_do_not_write (roles : list string) :
  Forall (fun h => forall req s,
            users (final h req s) = users s /\
            entropy (final h req s) = entropy s)
         (reading_handlers roles).
Proof.
  assert (H : forall h : Request -> M unit,
             (forall req, preserves (fun s => (users s, entropy s)) (h req)) ->
             forall req s, users (final h req s) = users s /\
                           entropy (final h req s) = entropy s).
  { intros h Hh req s. specialize (Hh req s). unfold final.
    injection Hh as -> ->. split; reflexivity. }
  unfold reading_handlers.
  repeat (apply Forall_cons; [apply H; intros req|]); [..|apply Forall_nil].
  - unfold login, catchAsync. cbv zeta. preserved.
  - unfold logout. preserved.
  - unfold protect, catchAsync. preserved.
  - unfold isLoggedIn. preserved.
  - unfold restrictTo. preserved.
Qed.

(** X10.  No handler deletes a document or changes an identifier.  Every handler but [signup] leaves the list of stored
    identifiers as it is; [signup] leaves it as it is or appends the one
    identifier the store handed out. *)
Theorem handlers_keep_identifiers (roles : list string) (req : Request)
        (s : State) :
  Forall (fun h => h = signup \/ ids (final h req s) = ids s)
         (all_handlers roles) /\
  (ids (final signup req s) = ids s \/
   ids (final signup req s) = (ids s ++ [newObjectId (users s)])%list).
Proof.
  split.
  - unfold all_handlers, plain_handlers.
    apply Forall_cons.
    { right. revert s. change (preserves ids (restrictTo roles req)).
      unfold restrictTo. preserved. }
    apply Forall_cons; [now left|].
    repeat (apply Forall_cons;
            [right; revert s;
             match goal with
             | |- forall s, ids (final ?h req s) = ids s =>
                 change (preserves ids (h req))
             end|]); [..|apply Forall_nil].
    + unfold login, catchAsync. cbv zeta. preserved.
    + unfold logout. preserved.
    + unfold protect, catchAsync. preserved.
    + unfold isLoggedIn. preserved.
    + unfold forgotPassword, catchAsync. preserved.
    + unfold resetPassword, catchAsync. cbv zeta. preserved.
    + unfold updatePassword, catchAsync. preserved.
  - unfold signup, ids. unfold_monad. cbn.
    destruct (validate (users s) _); cbn; [|now left].
    right. destruct (mailUp s); cbn.
    + unfold createSendToken. unfold_monad. cbn. now rewrite map_app.
    + now rewrite map_app.
Qed.

(** *** How a run ends *)

Lemma ends_bind {A B} (n : nat) (c : M A) (k : A -> M B) :
  ends 0 c -> (forall a, ends n (k a)) -> ends n (bind c k).
Proof.
  intros Hc Hk s. unfold bind.
  destruct (Hc s) as (e1 & H1 & N1).
  destruct (c s) as [[a|e] s1]; cbn in H1, N1.
  - destruct (Hk a s1) as (e2 & H2 & N2).
    exists (e1 ++ e2)%list. rewrite H2, H1, app_assoc. split; [reflexivity|].
    rewrite filter_app, length_app, N1, N2. reflexivity.
  - exists e1. cbn. now split.
Qed.

Lemma ends_try_catch {A} (c : M A) (h : JsError -> M A) :
  ends 1 c -> (forall e, ends 1 (h e)) -> ends 1 (try_catch c h).
Proof.
  intros Hc Hh s. unfold try_catch.
  destruct (Hc s) as (e1 & H1 & N1).
  destruct (c s) as [[a|e] s1]; cbn in H1, N1.
  - exists e1. cbn. now split.
  - destruct (Hh e s1) as (e2 & H2 & N2).
    exists (e1 ++ e2)%list. rewrite H2, H1, app_assoc. split; [reflexivity|].
    rewrite filter_app, length_app, N1, N2. reflexivity.
Qed.

(** A primitive that logs nothing, or one fixed call. *)
Ltac ends_primitive :=
  solve [ intros ?; run_primitive;
          first [ exists []; split; [now rewrite app_nil_r | reflexivity]
                | eexists; split; [reflexivity | reflexivity] ] ].

Ltac ended :=
  repeat (intros;
    first [ apply ends_bind
          | apply ends_try_catch
          | match goal with
            | |- ends _ (if ?b then _ else _) => destruct b
            | |- ends _ (match ?x with _ => _ end) => destruct x
            end
          | ends_primitive ]).

(** Once the errors of a computation that ends once are caught and handed
    to [next], the whole returns normally and has ended exactly once. *)
Lemma ends_caught (c : M unit) (arg : JsError -> option JsError) (s : State) :
  ends 1 c ->
  fst (try_catch c (fun err => next (arg err) []) s) = Ret tt /\
  length (filter terminal
            (since s (snd (try_catch c (fun err => next (arg err) []) s))))
    = 1%nat.
Proof.
  intros Hc. unfold try_catch. destruct (Hc s) as (e1 & H1 & N1).
  destruct (c s) as [[[]|e] s1]; cbn in H1, N1.
  - split; [reflexivity|]. cbn. now rewrite (since_app _ _ _ H1).
  - split; [reflexivity|].
    assert (E : out (snd (next (arg e) [] s1))
                = (out s ++ (e1 ++ [Next (arg e) []]))%list)
      by (cbn; rewrite H1, <- app_assoc; reflexivity).
    rewrite (since_app _ _ _ E), filter_app, length_app, N1. reflexivity.
Qed.

(** X8.  Every exported handler ends the handling of a request exactly
    once, whatever the request and the state: it returns normally and has
    made one terminal call, a response or a call to [next], never both and
    never neither.  [restrictTo] does the same when it returns; when
    [req.user] is missing it throws and has made no call. *)
Theorem handlers_end_once (req : Request) (s : State) :
  Forall (fun h =>
            fst (h req s) = Ret tt /\
            length (filter terminal (since s (final h req s))) = 1%nat)
         plain_handlers /\
  (forall roles,
     length (filter terminal (since s (final (restrictTo roles) req s)))
       = match fst (restrictTo roles req s) with
         | Ret _ => 1%nat
         | Throw _ => 0%nat
         end).
Proof.
  split.
  - unfold plain_handlers, final.
    repeat (apply Forall_cons;
            [first [ apply (ends_caught _ (fun e => Some e))
                   | idtac ]|]); [..|apply Forall_nil].
    + cbv zeta. ended.
    + cbv zeta. ended.
    + unfold logout. unfold_monad. cbn. split; [reflexivity|].
      rewrite (since_app s _ [Cookie "jwt" "log-out-token-:D"
                 {| expires := clock s + 10 * 1000; httpOnly := true;
                    secure := false |};
               Respond 200 {| j_status := "success"; j_token := None;
                              j_message := None; j_user := None |}])
        by (cbn; now rewrite <- app_assoc).
      reflexivity.
    + ended.
    + unfold isLoggedIn.
      destruct (cookies_jwt req) as [[|c t]|];
        try (cbn; split; [reflexivity | now rewrite since_emit]).
      apply (ends_caught _ (fun _ => None)). ended.
    + ended.
    + cbv zeta. ended.
    + ended.
  - intros roles. unfold final.
    assert (H : ends 1 (restrictTo roles req)) by (unfold restrictTo; ended).
    destruct (H s) as (evs & E & N). now rewrite (since_app _ _ _ E).
Qed.

(** *** What a run writes as cookies *)

Lemma keeps_bind {A B} (P : Env -> Event -> Prop) (c : M A) (k : A -> M B) :
  keeps P c -> (forall a, keeps P (k a)) -> keeps P (bind c k).
Proof.
  intros Hc Hk s. unfold bind.
  destruct (Hc s) as (E1 & e1 & H1 & F1).
  destruct (c s) as [[a|e] s1]; cbn in E1, H1.
  - destruct (Hk a s1) as (E2 & e2 & H2 & F2).
    split; [congruence|].
    exists (e1 ++ e2)%list. rewrite H2, H1, app_assoc. split; [reflexivity|].
    apply Forall_app. split; [exact F1 | now rewrite <- E1].
  - split; [exact E1|]. exists e1. now split.
Qed.

Lemma keeps_try_catch {A} (P : Env -> Event -> Prop) (c : M A)
      (h : JsError -> M A) :
  keeps P c -> (forall e, keeps P (h e)) -> keeps P (try_catch c h).
Proof.
  intros Hc Hh s. unfold try_catch.
  destruct (Hc s) as (E1 & e1 & H1 & F1).
  destruct (c s) as [[a|e] s1]; cbn in E1, H1.
  - split; [exact E1|]. exists e1. now split.
  - destruct (Hh e s1) as (E2 & e2 & H2 & F2).
    split; [congruence|].
    exists (e1 ++ e2)%list. rewrite H2, H1, app_assoc. split; [reflexivity|].
    apply Forall_app. split; [exact F1 | now rewrite <- E1].
Qed.

Lemma keeps_cookie_createSendToken (user : User) (code : Z) :
  keeps cookie_ok (createSendToken user code).
Proof.
  intros s. unfold createSendToken. unfold_monad. cbn.
  split; [reflexivity|]. eexists. split.
  - rewrite <- app_assoc. reflexivity.
  - repeat constructor. cbn. intros H. now apply String.eqb_eq.
Qed.

Ltac keeps_primitive :=
  solve [ intros ?; run_primitive; (split; [reflexivity|]);
          first [ exists []; split; [now rewrite app_nil_r | constructor]
                | eexists; split;
                  [reflexivity | repeat constructor; discriminate] ] ].

Ltac kept :=
  repeat (intros;
    first [ apply keeps_cookie_createSendToken
          | apply keeps_bind
          | apply keeps_try_catch
          | match goal with
            | |- keeps _ (if ?b then _ else _) => destruct b
            | |- keeps _ (match ?x with _ => _ end) => destruct x
            end
          | keeps_primitive ]).

(** X7.  Every cookie any handler writes is the [jwt] cookie, is
    [httpOnly], and carries the [secure] flag only when [NODE_ENV] is
    "production"; this holds for the session cookie of [createSendToken] and
    for the placeholder [logout] writes alike. *)
Theorem handlers_write_safe_cookies (roles : list string) (req : Request)
        (s : State) :
  Forall (fun h => Forall (cookie_ok (env s)) (since s (final h req s)))
         (all_handlers roles).
Proof.
  assert (H : forall h : Request -> M unit,
             keeps cookie_ok (h req) ->
             Forall (cookie_ok (env s)) (since s (final h req s))).
  { intros h Hh. destruct (Hh s) as (_ & evs & E & F).
    unfold final. now rewrite (since_app _ _ _ E). }
  unfold all_handlers, plain_handlers.
  repeat (apply Forall_cons; [apply H|]); [..|apply Forall_nil].
  - unfold restrictTo. kept.
  - unfold signup, catchAsync. cbv zeta. kept.
  - unfold login, catchAsync. cbv zeta. kept.
  - unfold logout. kept.
  - unfold protect, catchAsync. kept.
  - unfold isLoggedIn. kept.
  - unfold forgotPassword, catchAsync. kept.
  - unfold resetPassword, catchAsync. cbv zeta. kept.
  - unfold updatePassword, catchAsync. kept.
Qed.

End Invariants.

(* ------------------------------------------------------------------ *)
(** ** Role checks and the reset flow *)

Section Flows.

Context {K : Collaborators}.

(** X1.  [restrictTo(...roles)] lets the request through exactly when the
    role of [req.user] is one of the listed roles; otherwise it hands [next]
    an operational error with status 403.  In particular an empty list of
    roles, or a user without a role, is always refused.  When [req.user] was
    never set it throws a TypeError and calls nothing. *)
Theorem restrictTo_outcome (roles : list string) (req : Request) (s : State) :
  (reqUser s = None -> restrictTo roles req s = (Throw TypeErr, s)) /\
  (forall u, reqUser s = Some u ->
     ((exists r, In r roles /\ role u = Some r) ->
      restrictTo roles req s = (Ret tt, emit (Next None []) s)) /\
     (~ (exists r, In r roles /\ role u = Some r) ->
      signals 403 s (final (restrictTo roles) req s)) /\
     (roles = [] \/ role u = None ->
      signals 403 s (final (restrictTo roles) req s))).
Proof.
  split.
  - intros H. unfold restrictTo. unfold_monad. now rewrite H.
  - intros u Hu.
    assert (Hin : existsb (fun r => Js.eqb (Some r) (role u)) roles = true
                  <-> exists r, In r roles /\ role u = Some r).
    { rewrite existsb_exists. split; intros (r & Hr & E); exists r;
        (split; [exact Hr|]).
      - apply Js_eqb_eq in E. congruence.
      - apply Js_eqb_eq. congruence. }
    assert (Hno : ~ (exists r, In r roles /\ role u = Some r) ->
                  signals 403 s (final (restrictTo roles) req s)).
    { intros Hn. unfold restrictTo. unfold_monad. rewrite Hu. cbn.
      destruct (existsb _ roles) eqn:E.
      - exfalso. apply Hn, Hin. reflexivity.
      - cbn. eexists. repeat split. }
    split; [|split].
    + intros Hy. apply Hin in Hy. unfold restrictTo. unfold_monad.
      rewrite Hu. cbv beta iota. rewrite Hy. reflexivity.
    + exact Hno.
    + intros [-> | Hr]; apply Hno; intros (r & Hr' & E);
        [destruct Hr' | congruence].
Qed.

Lemma In_replace_doc (u v : User) (db : list User) :
  In v db -> _id v = _id u -> In u (replace_doc u db).
Proof.
  intros Hv Hid. unfold replace_doc. apply in_map_iff. exists v.
  split; [|exact Hv].
  assert (E : by_id (_id u) v = true) by (now apply by_id_eq). now rewrite E.
Qed.

(** The state [forgotPassword] reaches when the user is found and the mail
    goes out. *)
Lemma forgotPassword_sent (req : Request) (s : State) (user : User) :
  findOne (by_email (b_email (body req))) (users s) = Some user ->
  mailUp s = true ->
  final forgotPassword req s
    = emit (Respond 200
              {| j_status := "success"; j_token := None;
                 j_message := Some "Token has been sent to email";
                 j_user := None |})
        (emit (Mail PasswordReset (issued_doc s user)
                 (protocol req ++ "://" ++ host req
                    ++ "/api/v1/users/resetPassword/"
                    ++ randomBytes_hex (entropy s)))
           (set_users (replace_doc (issued_doc s user) (users s))
              (set_entropy (S (entropy s)) s))).
Proof.
  intros Hfind Hmail. unfold forgotPassword. unfold_monad.
  rewrite Hfind. cbn. rewrite Hmail. reflexivity.
Qed.

(** X2.  When the posted email resolves to a user and the mail goes out,
    [forgotPassword] draws one raw token, stores only its hash on the user
    together with an expiry one validity window from now, mails a link that
    ends in the raw token, and answers 200 with a body that carries neither
    the token nor the user. *)
Theorem forgotPassword_issues_token (req : Request) (s : State)
        (user : User) :
  findOne (by_email (b_email (body req))) (users s) = Some user ->
  mailUp s = true ->
  users (final forgotPassword req s)
    = replace_doc (issued_doc s user) (users s) /\
  findOne (by_id (_id user)) (users (final forgotPassword req s))
    = Some (issued_doc s user) /\
  passwordResetToken (issued_doc s user)
    = Some (sha256_hex (randomBytes_hex (entropy s))) /\
  passwordResetExpires (issued_doc s user) = Some (clock s + resetWindow) /\
  password (issued_doc s user) = password user /\
  entropy (final forgotPassword req s) = S (entropy s) /\
  since s (final forgotPassword req s)
    = [Mail PasswordReset (issued_doc s user)
            (protocol req ++ "://" ++ host req
               ++ "/api/v1/users/resetPassword/"
               ++ randomBytes_hex (entropy s));
       Respond 200
         {| j_status := "success"; j_token := None;
            j_message := Some "Token has been sent to email";
            j_user := None |}].
Proof.
  intros Hfind Hmail.
  destruct (find_by_id_of_In user (users s)) as (v & Hv).
  { apply find_some in Hfind. apply Hfind. }
  rewrite (forgotPassword_sent req s user Hfind Hmail). cbn.
  repeat split.
  - apply (find_replace_doc (issued_doc s user) v (users s)). exact Hv.
  - apply since_app. cbn. rewrite <- app_assoc. reflexivity.
Qed.

Lemma resetPassword_not_found (req : Request) (s : State) :
  findOne (by_reset (sha256_hex (params_token req)) (clock s)) (users s)
    = None ->
  final resetPassword req s
    = emit (Next (Some (AppErr (new_AppError
        "This token has been expired or user doee not exist" (Some 400))))
        []) s.
Proof.
  intros H. unfold resetPassword. unfold_monad. cbn. now rewrite H.
Qed.

Lemma resetPassword_found (req : Request) (s : State) (user : User) :
  findOne (by_reset (sha256_hex (params_token req)) (clock s)) (users s)
    = Some user ->
  final resetPassword req s
    = if validate (users s) (reset_doc req user)
      then snd (createSendToken (reset_doc req user) 200
                  (set_users (replace_doc (reset_doc req user) (users s)) s))
      else emit (Next (Some ValidationErr) []) s.
Proof.
  intros H. unfold resetPassword, reset_doc, createSendToken. unfold_monad.
  cbn. rewrite H. cbn.
  match goal with
  | |- context [validate (users s) ?d] => destruct (validate (users s) d)
  end; reflexivity.
Qed.

(** X3.  The token [forgotPassword] mails is accepted by [resetPassword]
    until it expires: presented against the collection [forgotPassword] left
    behind, at any time before the stored expiry, it resolves to a user that
    carries its hash, and [resetPassword] goes on to save that user: when
    the validators accept the document it is saved and the answer is 200
    with a token signed for the user, when they reject it their error is
    what reaches [next].  Either way no operational error, of status 400 or
    any other, is handed to [next]. *)
Theorem reset_token_round_trip (req req2 : Request) (s s2 : State)
        (user : User) :
  findOne (by_email (b_email (body req))) (users s) = Some user ->
  mailUp s = true ->
  users s2 = users (final forgotPassword req s) ->
  clock s2 < clock s + resetWindow ->
  params_token req2 = randomBytes_hex (entropy s) ->
  exists found,
    findOne (by_reset (sha256_hex (params_token req2)) (clock s2))
            (users s2) = Some found /\
    passwordResetToken found = Some (sha256_hex (params_token req2)) /\
    (validate (users s2) (reset_doc req2 found) = true ->
     users (final resetPassword req2 s2)
       = replace_doc (reset_doc req2 found) (users s2) /\
     exists opts b,
       since s2 (final resetPassword req2 s2)
         = [Cookie "jwt"
              (jwt_sign (_id found) (JWT_SECRET (env s2))
                        (JWT_EXPIRES_IN (env s2)) (clock s2)) opts;
            Respond 200 b] /\
       j_token b = Some (jwt_sign (_id found) (JWT_SECRET (env s2))
                                  (JWT_EXPIRES_IN (env s2)) (clock s2))) /\
    (validate (users s2) (reset_doc req2 found) = false ->
     final resetPassword req2 s2 = emit (Next (Some ValidationErr) []) s2) /\
    (forall e rest,
       ~ In (Next (Some (AppErr e)) rest)
            (since s2 (final resetPassword req2 s2))).
Proof.
  intros Hfind Hmail Hdb Hclock Htok.
  assert (Hin : In (issued_doc s user) (users s2)).
  { rewrite Hdb, (forgotPassword_sent req s user Hfind Hmail). cbn.
    apply (In_replace_doc _ user).
    - apply find_some in Hfind. apply Hfind.
    - reflexivity. }
  assert (Hok : by_reset (sha256_hex (params_token req2)) (clock s2)
                         (issued_doc s user) = true).
  { unfold by_reset, issued_doc. cbn. rewrite Htok, String.eqb_refl. cbn.
    now apply Z.ltb_lt. }
  destruct (findOne (by_reset (sha256_hex (params_token req2)) (clock s2))
                    (users s2)) as [found|] eqn:Ef.
  2:{ exfalso. pose proof (find_none _ _ Ef _ Hin) as Hn. congruence. }
  exists found. split; [reflexivity|]. split.
  { apply find_some in Ef. destruct Ef as [_ Ef]. unfold by_reset in Ef.
    apply andb_prop in Ef. destruct Ef as [Ef _]. now apply Js_eqb_eq in Ef. }
  rewrite (resetPassword_found _ _ _ Ef).
  destruct (validate (users s2) (reset_doc req2 found)).
  - assert (Hs : since s2
                   (snd (createSendToken (reset_doc req2 found) 200
                      (set_users (replace_doc (reset_doc req2 found)
                                              (users s2)) s2)))
                 = [Cookie "jwt"
                      (jwt_sign (_id found) (JWT_SECRET (env s2))
                                (JWT_EXPIRES_IN (env s2)) (clock s2))
                      {| expires := clock s2
                           + JWT_COOKIE_EXPIRES_IN (env s2) * 24 * 60 * 60
                             * 1000;
                         httpOnly := true;
                         secure := String.eqb (NODE_ENV (env s2))
                                              "production" |};
                    Respond 200
                      {| j_status := "success";
                         j_token := Some (jwt_sign (_id found)
                                            (JWT_SECRET (env s2))
                                            (JWT_EXPIRES_IN (env s2))
                                            (clock s2));
                         j_message := None;
                         j_user := Some (set_password None
                                           (reset_doc req2 found)) |}]).
    { apply since_app. unfold createSendToken. unfold_monad. cbn.
      rewrite <- app_assoc. reflexivity. }
    split; [|split].
    + intros _. split.
      * unfold createSendToken. unfold_monad. reflexivity.
      * eexists. eexists. split; [exact Hs | reflexivity].
    + discriminate.
    + intros e rest Hi. rewrite Hs in Hi.
      destruct Hi as [Hi | [Hi | []]]; discriminate Hi.
  - split; [|split].
    + discriminate.
    + reflexivity.
    + intros e rest Hi. rewrite since_emit in Hi.
      destruct Hi as [Hi | []]. discriminate Hi.
Qed.

(** X4.  A reset that goes through: when the presented token resolves to a
    user and the store's validators accept the document, [resetPassword]
    saves the user with the new password and with both reset fields cleared,
    and answers 200 with a token signed for that user.  The token is spent:
    if every document that carried its hash was that user's, presenting it
    again, at any time, is turned away with status 400. *)
Theorem resetPassword_success_single_use (req : Request) (s : State)
        (user : User) :
  findOne (by_reset (sha256_hex (params_token req)) (clock s)) (users s)
    = Some user ->
  validate (users s) (reset_doc req user) = true ->
  users (final resetPassword req s)
    = replace_doc (reset_doc req user) (users s) /\
  findOne (by_id (_id user)) (users (final resetPassword req s))
    = Some (reset_doc req user) /\
  password (reset_doc req user) = b_password (body req) /\
  passwordResetToken (reset_doc req user) = None /\
  passwordResetExpires (reset_doc req user) = None /\
  (exists opts b,
     since s (final resetPassword req s)
       = [Cookie "jwt"
            (jwt_sign (_id user) (JWT_SECRET (env s)) (JWT_EXPIRES_IN (env s))
                      (clock s)) opts;
          Respond 200 b] /\
     j_token b = Some (jwt_sign (_id user) (JWT_SECRET (env s))
                                (JWT_EXPIRES_IN (env s)) (clock s))) /\
  ((forall d, In d (users s) ->
      passwordResetToken d = Some (sha256_hex (params_token req)) ->
      _id d = _id user) ->
   forall req2 s2,
     users s2 = users (final resetPassword req s) ->
     params_token req2 = params_token req ->
     signals 400 s2 (final resetPassword req2 s2)).
Proof.
  intros Hfind Hv.
  assert (Hin : In user (users s)) by (apply find_some in Hfind; apply Hfind).
  destruct (find_by_id_of_In user (users s) Hin) as (v & Hid).
  assert (Hdone : users (final resetPassword req s)
                  = replace_doc (reset_doc req user) (users s)).
  { rewrite (resetPassword_found req s user Hfind), Hv.
    unfold createSendToken. unfold_monad. reflexivity. }
  assert (Hspent :
    (forall d, In d (users s) ->
       passwordResetToken d = Some (sha256_hex (params_token req)) ->
       _id d = _id user) ->
    forall req2 s2,
      users s2 = users (final resetPassword req s) ->
      params_token req2 = params_token req ->
      signals 400 s2 (final resetPassword req2 s2)).
  { intros Honly req2 s2 Hdb Htok.
    rewrite resetPassword_not_found; [eexists; repeat split|].
    apply find_none_iff. intros d Hd. rewrite Hdb, Hdone in Hd.
    unfold replace_doc in Hd. apply in_map_iff in Hd.
    destruct Hd as (d0 & Hd0 & Hin0).
    unfold by_reset. rewrite Htok.
    destruct (Js.eqb (passwordResetToken d) _) eqn:E; [|reflexivity].
    apply Js_eqb_eq in E. exfalso.
    destruct (by_id (_id (reset_doc req user)) d0) eqn:Eid.
    - subst d. discriminate E.
    - subst d0.
      assert (by_id (_id (reset_doc req user)) d = true)
        by (apply by_id_eq; now rewrite (Honly d Hin0 E)).
      congruence. }
  split; [exact Hdone|]. rewrite Hdone.
  split; [apply (find_replace_doc (reset_doc req user) v (users s));
          exact Hid|].
  repeat (split; [reflexivity|]).
  split; [|rewrite <- Hdone; exact Hspent].
  rewrite (resetPassword_found req s user Hfind), Hv.
  unfold createSendToken. unfold_monad. cbn.
  eexists. eexists. split.
  - apply since_app. cbn. rewrite <- app_assoc. reflexivity.
  - reflexivity.
Qed.

(** X5.  A reset the validators refuse does not spend the token: the
    validation error is forwarded to [next], nothing is written, and the
    same token still resolves to the same user. *)
Theorem resetPassword_rejected_keeps_token (req : Request) (s : State)
        (user : User) :
  findOne (by_reset (sha256_hex (params_token req)) (clock s)) (users s)
    = Some user ->
  validate (users s) (reset_doc req user) = false ->
  final resetPassword req s = emit (Next (Some ValidationErr) []) s /\
  findOne (by_reset (sha256_hex (params_token req)) (clock s))
          (users (final resetPassword req s)) = Some user.
Proof.
  intros Hfind Hv.
  rewrite (resetPassword_found req s user Hfind), Hv. cbn.
  split; [reflexivity | exact Hfind].
Qed.

(** X6.  How [signup] fails.  When the validators refuse the document,
    nothing is stored, no mail is sent and the validation error reaches
    [next].  When they accept it and the welcome mail cannot be sent, the
    mailer's error reaches [next] and no token is issued, but the user has
    been created and stays in the collection. *)
Theorem signup_failures (req : Request) (s : State) :
  (validate (users s) (signup_doc req s) = false ->
   final signup req s = emit (Next (Some ValidationErr) []) s) /\
  (validate (users s) (signup_doc req s) = true -> mailUp s = false ->
   final signup req s
     = emit (Next (Some MailErr) [])
            (set_users (users s ++ [signup_doc req s]) s)).
Proof.
  unfold signup, signup_doc. unfold_monad. cbn. split.
  - intros ->. reflexivity.
  - intros -> Hm. cbn. rewrite Hm. reflexivity.
Qed.

(** X13.  [updatePassword] relies on [protect] having run: when [req.user]
    is not set, or the user it names is no longer stored, the TypeError of
    reading a property of nothing is what reaches [next], not an operational
    error, and nothing is written. *)
Theorem updatePassword_without_user (req : Request) (s : State) :
  (reqUser s = None \/
   exists me, reqUser s = Some me /\
              findOne (by_id (_id me)) (users s) = None) ->
  final updatePassword req s = emit (Next (Some TypeErr) []) s.
Proof.
  intros [H | (me & H & Hf)]; unfold updatePassword; unfold_monad;
    rewrite H; [reflexivity|].
  cbv beta iota. rewrite Hf. reflexivity.
Qed.

(** X14.  [login] does not tell an unknown email from a wrong password: with
    both fields provided, the two failures hand [next] the very same error,
    so the calls logged are equal whichever of the two happened. *)
Theorem login_failures_indistinguishable (req1 req2 : Request)
        (s1 s2 : State) (u : User) :
  Js.truthy (b_email (body req1)) = true ->
  Js.truthy (b_password (body req1)) = true ->
  Js.truthy (b_email (body req2)) = true ->
  Js.truthy (b_password (body req2)) = true ->
  findOne (by_email (b_email (body req1))) (users s1) = None ->
  findOne (by_email (b_email (body req2))) (users s2) = Some u ->
  correctPassword (b_password (body req2)) (password u) = false ->
  since s1 (final login req1 s1) = since s2 (final login req2 s2) /\
  since s1 (final login req1 s1)
    = [Next (Some (AppErr (new_AppError "Incorrect email or password !"
                                        (Some 401)))) []].
Proof.
  intros He1 Hp1 He2 Hp2 Hf1 Hf2 Hc.
  assert (R1 : since s1 (final login req1 s1)
               = [Next (Some (AppErr (new_AppError
                    "Incorrect email or password !" (Some 401)))) []]).
  { unfold login. unfold_monad. cbv beta zeta. rewrite He1, Hp1. cbn.
    rewrite Hf1. cbn. apply since_emit. }
  assert (R2 : since s2 (final login req2 s2)
               = [Next (Some (AppErr (new_AppError
                    "Incorrect email or password !" (Some 401)))) []]).
  { unfold login. unfold_monad. cbv beta zeta. rewrite He2, Hp2. cbn.
    rewrite Hf2, Hc. cbn. apply since_emit. }
  split; [congruence | exact R1].
Qed.

End Flows.

(* ------------------------------------------------------------------ *)
(** ** Where the token comes from *)

Section Tokens.

Context {K : Collaborators}.

Lemma append_assoc (a b c : string) : (a ++ b) ++ c = a ++ (b ++ c).
Proof. induction a as [|x a IH]; cbn; [reflexivity | now rewrite IH]. Qed.

Lemma prefix_empty (s : string) : String.prefix "" s = true.
Proof. destruct s; reflexivity. Qed.

Lemma split_nonempty (sep : ascii) (s : string) : Js.split sep s <> [].
Proof.
  destruct s as [|c r]; cbn; [discriminate|].
  destruct (Ascii.eqb c sep); [discriminate|].
  destruct (Js.split sep r); discriminate.
Qed.

(** A string without the separator is one piece. *)
Lemma split_plain (sep : ascii) (s : string) :
  has_char sep s = false -> Js.split sep s = [s].
Proof.
  induction s as [|c r IH]; cbn; [reflexivity|].
  destruct (Ascii.eqb c sep); cbn; [discriminate|].
  intros H. now rewrite (IH H).
Qed.

(** The first piece ends at the first separator. *)
Lemma split_first (sep : ascii) (a b : string) :
  has_char sep a = false ->
  Js.split sep (a ++ String sep b) = a :: Js.split sep b.
Proof.
  induction a as [|c r IH]; cbn.
  - intros _. now rewrite Ascii.eqb_refl.
  - destruct (Ascii.eqb c sep); cbn; [discriminate|].
    intros H. now rewrite (IH H).
Qed.

(** Splitting loses nothing: the pieces joined by the separator give the
    string back. *)
Lemma split_concat (sep : ascii) (s : string) :
  String.concat (String sep EmptyString) (Js.split sep s) = s.
Proof.
  induction s as [|c r IH]; cbn; [reflexivity|].
  destruct (Ascii.eqb c sep) eqn:E.
  - apply Ascii.eqb_eq in E. subst c.
    pose proof (split_nonempty sep r) as Hne.
    destruct (Js.split sep r) as [|h t]; [congruence|].
    cbn in *. now rewrite IH.
  - pose proof (split_nonempty sep r) as Hne.
    destruct (Js.split sep r) as [|h t]; [congruence|].
    destruct t as [|h' t']; cbn in *; now rewrite <- IH.
Qed.

(** X12.  The usual header yields its token.  For an Authorization header
    made of a word that starts with "Bearer", one space, and a token without
    spaces, [protect] takes exactly that token, whatever the cookie; the same
    holds when more text follows after a further space, which is ignored.
    The scheme word is only checked for its first six characters. *)
Theorem protect_token_bearer (req : Request) (x t rest : string) :
  has_char " " x = false ->
  has_char " " t = false ->
  (authorization req = Some ("Bearer" ++ x ++ " " ++ t) ->
   protect_token req = Some t) /\
  (authorization req = Some ("Bearer" ++ x ++ " " ++ t ++ " " ++ rest) ->
   protect_token req = Some t).
Proof.
  intros Hx Ht.
  assert (Hw : has_char " " ("Bearer" ++ x) = false) by (cbn; exact Hx).
  split; intros Ha; unfold protect_token; rewrite Ha.
  - change ("Bearer" ++ x ++ " " ++ t)
      with ("Bearer" ++ (x ++ String " " t)).
    rewrite <- append_assoc.
    rewrite (split_first " " ("Bearer" ++ x) t Hw), (split_plain " " t Ht).
    cbn. now rewrite prefix_empty.
  - change ("Bearer" ++ x ++ " " ++ t ++ " " ++ rest)
      with ("Bearer" ++ (x ++ String " " (t ++ String " " rest))).
    rewrite <- append_assoc.
    rewrite (split_first " " ("Bearer" ++ x) _ Hw),
            (split_first " " t rest Ht).
    cbn. now rewrite prefix_empty.
Qed.

Lemma protect_run (req : Request) (s : State) (tok : string) :
  protect_token req = Some tok -> Js.truthy (Some tok) = true ->
  final protect req s =
    match jwt_verify tok (JWT_SECRET (env s)) (clock s) with
    | inl e => emit (Next (Some (JwtErr e)) []) s
    | inr p =>
        match findOne (by_id (pl_id p)) (users s) with
        | None => emit (Next (Some (AppErr (new_AppError
            "The user belonging to this token no longer exist !"
            (Some 401)))) []) s
        | Some u =>
            if changedPasswordAfter u (pl_iat p)
            then emit (Next (Some (AppErr (new_AppError
              "User recently has changed password, please login again !"
              (Some 401)))) []) s
            else emit (Next None [])
                   (set_localsUser (Some u) (set_reqUser (Some u) s))
        end
    end.
Proof.
  intros Etok Ht. unfold protect. unfold_monad. rewrite Etok.
  destruct tok as [|c t]; [discriminate|].
  destruct (jwt_verify (String c t) _ _) as [e|p]; cbn; [reflexivity|].
  destruct (findOne _ _) as [u|]; cbn; [|reflexivity].
  destruct (changedPasswordAfter u _); reflexivity.
Qed.

Lemma isLoggedIn_run (req : Request) (s : State) (tok : string) :
  cookies_jwt req = Some tok -> Js.truthy (Some tok) = true ->
  final isLoggedIn req s =
    match jwt_verify tok (JWT_SECRET (env s)) (clock s) with
    | inl e => emit (Next None []) s
    | inr p =>
        match findOne (by_id (pl_id p)) (users s) with
        | None => emit (Next None []) s
        | Some u =>
            if changedPasswordAfter u (pl_iat p)
            then emit (Next None []) s
            else emit (Next None []) (set_localsUser (Some u) s)
        end
    end.
Proof.
  intros Etok Ht. unfold isLoggedIn. unfold_monad. rewrite Etok.
  destruct tok as [|c t]; [discriminate|].
  destruct (jwt_verify (String c t) _ _) as [e|p]; cbn; [reflexivity|].
  destruct (findOne _ _) as [u|]; cbn; [|reflexivity].
  destruct (changedPasswordAfter u _); reflexivity.
Qed.

(** X11.  On a request without a Bearer header the two middlewares agree on
    who is logged in: either [protect] grants access to a user and
    [isLoggedIn] puts that same user in [res.locals.user], or [protect]
    refuses with some error and [isLoggedIn] passes the request on without
    setting anybody. *)
Theorem protect_isLoggedIn_agree (req : Request) (s : State) :
  (forall a, authorization req = Some a -> Js.startsWith a "Bearer" = false) ->
  (exists u,
     final protect req s
       = emit (Next None [])
              (set_localsUser (Some u) (set_reqUser (Some u) s)) /\
     final isLoggedIn req s
       = emit (Next None []) (set_localsUser (Some u) s))
  \/
  ((exists e, final protect req s = emit (Next (Some e) []) s) /\
   final isLoggedIn req s = emit (Next None []) s).
Proof.
  intros Hhdr.
  assert (Htok : protect_token req
                 = if Js.truthy (cookies_jwt req) then cookies_jwt req
                   else None).
  { unfold protect_token. destruct (authorization req) as [a|]; [|reflexivity].
    rewrite (Hhdr a eq_refl), andb_false_r. reflexivity. }
  destruct (Js.truthy (cookies_jwt req)) eqn:Et.
  - destruct (cookies_jwt req) as [tok|] eqn:Ec; [|discriminate].
    rewrite (protect_run req s tok Htok Et), (isLoggedIn_run req s tok Ec Et).
    destruct (jwt_verify tok _ _) as [e|p]; [right; split; eauto|].
    destruct (findOne _ _) as [u|]; [|right; split; eauto].
    destruct (changedPasswordAfter u _); [right; split; eauto|].
    left. exists u. split; reflexivity.
  - right. split.
    + eexists. apply protect_no_token. now rewrite Htok.
    + unfold isLoggedIn, final.
      destruct (cookies_jwt req) as [[|c t]|]; try reflexivity. discriminate.
Qed.

End Tokens.

(* ------------------------------------------------------------------ *)
(** ** The further properties on concrete requests *)

Module Walkthrough.

Import Demo.

#[local] Existing Instance collaborators.

Lemma restrictTo_outcome_witness :
  reqUser alice_session = Some alice /\
  signals 403 alice_session
    (final (restrictTo ["admin"; "lead-guide"]) cookie_alice alice_session) /\
  restrictTo ["user"] cookie_alice alice_session
    = (Ret tt, emit (Next None []) alice_session).
Proof.
  split; [reflexivity|].
  pose proof (proj2 (restrictTo_outcome ["admin"; "lead-guide"] cookie_alice
                       alice_session) alice eq_refl) as (_ & Hno & _).
  pose proof (proj2 (restrictTo_outcome ["user"] cookie_alice
                       alice_session) alice eq_refl) as (Hyes & _).
  split.
  - apply Hno. intros (r & [<- | [<- | []]] & E); discriminate E.
  - apply Hyes. exists "user". split; [now left | reflexivity].
Defined.

Lemma forgotPassword_issues_token_witness :
  findOne (by_email (b_email (body forgot_alice))) (users calm)
    = Some alice /\
  findOne (by_id "a1") (users (final forgotPassword forgot_alice calm))
    = Some alice_issued /\
  since calm (final forgotPassword forgot_alice calm)
    = [Mail PasswordReset alice_issued
            "http://127.0.0.1:3000/api/v1/users/resetPassword/r0";
       Respond 200
         {| j_status := "success"; j_token := None;
            j_message := Some "Token has been sent to email";
            j_user := None |}].
Proof.
  split; [reflexivity|].
  destruct (forgotPassword_issues_token forgot_alice calm alice
              eq_refl eq_refl) as (_ & H1 & _ & _ & _ & _ & H2).
  split; [exact H1 | exact H2].
Defined.

Lemma reset_token_round_trip_witness :
  users a_while_later = users (final forgotPassword forgot_alice calm) /\
  clock a_while_later < clock calm + resetWindow /\
  exists found opts b,
    findOne (by_reset (sha256_hex "r0") (clock a_while_later))
            (users a_while_later) = Some found /\
    since a_while_later (final resetPassword reset_with_r0 a_while_later)
      = [Cookie "jwt" "jwt:a1" opts; Respond 200 b] /\
    j_token b = Some "jwt:a1".
Proof.
  assert (Hlt : clock a_while_later < clock calm + resetWindow)
    by (cbn; lia).
  assert (Hdb : users a_while_later
                = users (final forgotPassword forgot_alice calm))
    by reflexivity.
  split; [exact Hdb|]. split; [exact Hlt|].
  destruct (reset_token_round_trip forgot_alice reset_with_r0 calm
              a_while_later alice)
    as (found & Hf & _ & Hyes & _ & _);
    [reflexivity | reflexivity | exact Hdb | exact Hlt | reflexivity |].
  assert (Hfa : found = alice_issued).
  { cbn in Hf. injection Hf as <-. reflexivity. }
  subst found.
  destruct Hyes as (_ & opts & b & Hs & Hb); [reflexivity|].
  exists alice_issued, opts, b. split; [reflexivity|].
  split; [exact Hs | exact Hb].
Defined.

Lemma resetPassword_success_single_use_witness :
  findOne (by_reset (sha256_hex (params_token reset_with_tok))
                    (clock reset_pending)) (users reset_pending)
    = Some carol_resetting /\
  (exists saved,
     findOne (by_id "c3")
       (users (final resetPassword reset_with_tok reset_pending))
       = Some saved /\
     password saved = Some "newpass99" /\
     passwordResetToken saved = None) /\
  signals 400 (final resetPassword reset_with_tok reset_pending)
    (final resetPassword reset_with_tok
       (final resetPassword reset_with_tok reset_pending)).
Proof.
  split; [reflexivity|].
  destruct (resetPassword_success_single_use reset_with_tok reset_pending
              carol_resetting)
    as (_ & Hsaved & Hpw & Htok & _ & _ & Hspent);
    [reflexivity | reflexivity |].
  split.
  - eexists. split; [exact Hsaved|]. split; [exact Hpw | exact Htok].
  - apply Hspent; [|reflexivity|reflexivity].
    intros d [<- | [<- | []]] E; [discriminate E | reflexivity].
Defined.

Lemma resetPassword_rejected_keeps_token_witness :
  validate (users reset_pending)
           (reset_doc reset_mistyped carol_resetting) = false /\
  final resetPassword reset_mistyped reset_pending
    = emit (Next (Some ValidationErr) []) reset_pending.
Proof.
  split; [reflexivity|].
  destruct (resetPassword_rejected_keeps_token reset_mistyped reset_pending
              carol_resetting) as (H & _); [reflexivity | reflexivity |].
  exact H.
Defined.

Lemma signup_failures_witness :
  final signup signup_mistyped calm
    = emit (Next (Some ValidationErr) []) calm /\
  (exists u,
     users (final signup signup_as_admin mail_down) = [alice; u] /\
     since mail_down (final signup signup_as_admin mail_down)
       = [Next (Some MailErr) []]).
Proof.
  split.
  - apply (proj1 (signup_failures signup_mistyped calm)). reflexivity.
  - pose proof (proj2 (signup_failures signup_as_admin mail_down)) as H.
    rewrite H by reflexivity.
    eexists. split; reflexivity.
Defined.

Lemma protect_isLoggedIn_agree_witness :
  authorization cookie_alice = None /\
  ((exists u,
      final protect cookie_alice calm
        = emit (Next None [])
               (set_localsUser (Some u) (set_reqUser (Some u) calm)) /\
      final isLoggedIn cookie_alice calm
        = emit (Next None []) (set_localsUser (Some u) calm))
   \/
   ((exists e, final protect cookie_alice calm
               = emit (Next (Some e) []) calm) /\
    final isLoggedIn cookie_alice calm = emit (Next None []) calm)).
Proof.
  split; [reflexivity|].
  apply protect_isLoggedIn_agree. intros a H. discriminate H.
Defined.

Lemma protect_token_bearer_witness :
  authorization bearer_alice = Some "Bearer jwt:a1" /\
  cookies_jwt bearer_alice = Some "jwt:zz" /\
  protect_token bearer_alice = Some "jwt:a1".
Proof.
  split; [reflexivity|]. split; [reflexivity|].
  apply (proj1 (protect_token_bearer bearer_alice "" "jwt:a1" ""
                  eq_refl eq_refl)).
  reflexivity.
Defined.

Lemma updatePassword_without_user_witness :
  reqUser calm = None /\
  final updatePassword update_ok calm
    = emit (Next (Some TypeErr) []) calm.
Proof.
  split; [reflexivity|].
  apply updatePassword_without_user. left. reflexivity.
Defined.

Lemma login_failures_indistinguishable_witness :
  findOne (by_email (b_email (body login_unknown))) (users calm) = None /\
  findOne (by_email (b_email (body login_wrong_password))) (users calm)
    = Some alice /\
  since calm (final login login_unknown calm)
    = since calm (final login login_wrong_password calm).
Proof.
  split; [reflexivity|]. split; [reflexivity|].
  pose proof (login_failures_indistinguishable login_unknown
                login_wrong_password calm calm alice) as H.
  apply H; reflexivity.
Defined.

End Walkthrough.
